(** * UAGC RFI conversion report: metrics derivation and report patching

    A shallow embedding of the three report scripts

      - [create_charts.py]           (module [CreateCharts]),
      - [create_final_charts.py]     (module [CreateFinalCharts]),
      - [create_enhanced_charts.py]  (module [CreateEnhancedCharts]),

    and theorems about the derived metrics, the ranking and classification
    of rows, and the patching of the HTML report.

    Modelling conventions.
      - A Python [str] is a [string]; characters are 8-bit code points.
      - A pandas float64 cell is an [fval]: a finite value, idealised as an
        exact rational, or one of the IEEE special values [PInf], [NInf],
        [NaN] that pandas produces on a zero denominator.
      - The file system is a finite map from paths to contents, the console
        a list of printed lines; a script run threads both.
      - The plotly renderer and the CSV parser are external: they are the
        fields of a record [externals] that every script takes. *)

From Stdlib Require Import String Ascii List ZArith QArith Lia Permutation Sorted.
From stdpp Require Import gmap strings pretty.

Open Scope string_scope.

(** ** Python string primitives *)

Module PyStr.

(** The double-quote character. *)
Definition dq : ascii := "034"%char.
Definition q : string := String dq "".

(** [s.startswith(p)] *)
Fixpoint starts_with (p s : string) : bool :=
  match p with
  | EmptyString => true
  | String a p' =>
      match s with
      | EmptyString => false
      | String b s' => Ascii.eqb a b && starts_with p' s'
      end
  end.

(** [s[n:]] and [s[:n]] *)
Fixpoint drop (n : nat) (s : string) : string :=
  match n with
  | O => s
  | S k => match s with EmptyString => EmptyString | String _ s' => drop k s' end
  end.

Fixpoint take (n : nat) (s : string) : string :=
  match n with
  | O => EmptyString
  | S k => match s with EmptyString => EmptyString | String a s' => String a (take k s') end
  end.

(** [s.find(old)], [None] standing for [-1] *)
Fixpoint find (old s : string) : option nat :=
  if starts_with old s then Some O
  else match s with
       | EmptyString => None
       | String _ s' => option_map S (find old s')
       end.

(** [old in s] *)
Definition contains (old s : string) : bool :=
  match find old s with Some _ => true | None => false end.

(** [s.replace(old, new, 1)] *)
Definition replace_first (old new s : string) : string :=
  match find old s with
  | Some i => take i s +:+ new +:+ drop (i + String.length old) s
  | None => s
  end.

(** [s.replace(old, new)]: every occurrence, left to right, without overlap.
    [skip] counts the characters of the occurrence being replaced that are
    still to be passed over.  [old] is a non-empty literal at every call. *)
Fixpoint replace_from (old new : string) (skip : nat) (s : string) : string :=
  match s with
  | EmptyString => EmptyString
  | String a s' =>
      match skip with
      | S k => replace_from old new k s'
      | O =>
          if starts_with old s
          then new +:+ replace_from old new (String.length old - 1) s'
          else String a (replace_from old new O s')
      end
  end.

Definition replace_all (old new s : string) : string := replace_from old new O s.

(** [s.count(old)]: occurrences without overlap. *)
Fixpoint count_from (old : string) (skip : nat) (s : string) : nat :=
  match s with
  | EmptyString => O
  | String _ s' =>
      match skip with
      | S k => count_from old k s'
      | O =>
          if starts_with old s
          then S (count_from old (String.length old - 1) s')
          else count_from old O s'
      end
  end.

Definition count (old s : string) : nat := count_from old O s.

(** [s.split(sep)], fuelled by the length of [s]: every piece after a
    separator is strictly shorter. *)
Fixpoint split_fuel (fuel : nat) (sep s : string) : list string :=
  match fuel with
  | O => [s]
  | S f =>
      match find sep s with
      | None => [s]
      | Some i => take i s :: split_fuel f sep (drop (i + String.length sep) s)
      end
  end.

Definition split (sep s : string) : list string :=
  split_fuel (String.length s) sep s.

(** [s.strip()] on the whitespace of [str.isspace] *)
Definition is_space (a : ascii) : bool :=
  let n := nat_of_ascii a in
  (((9 <=? n) && (n <=? 13)) || ((28 <=? n) && (n <=? 32))
   || (n =? 133) || (n =? 160))%nat.

Fixpoint lstrip (s : string) : string :=
  match s with
  | EmptyString => EmptyString
  | String a s' => if is_space a then lstrip s' else s
  end.

Fixpoint rstrip (s : string) : string :=
  match s with
  | EmptyString => EmptyString
  | String a s' =>
      match rstrip s' with
      | EmptyString => if is_space a then EmptyString else String a EmptyString
      | r => String a r
      end
  end.

Definition strip (s : string) : string := rstrip (lstrip s).

End PyStr.

(** ** The fragment of [re] the scripts use

    Both image patterns are sequences of literal characters, greedy
    repetitions of a character class and an optional character.  [rmatch]
    is the backtracking matcher of [re]: a greedy item first tries to
    consume one more character and falls back to the rest of the pattern. *)

Module Re.
Import PyStr.

Inductive item : Type :=
| Lit (c : ascii)
| Star (cls : ascii -> bool)
| Plus (cls : ascii -> bool)
| Opt (c : ascii).

Definition pattern := list item.

Fixpoint lits (s : string) : pattern :=
  match s with
  | EmptyString => []
  | String a s' => Lit a :: lits s'
  end.

Definition not_char (c : ascii) : ascii -> bool := fun a => negb (Ascii.eqb a c).

Definition star_loop (cls : ascii -> bool) (k : string -> option nat)
  : string -> option nat :=
  fix star (s : string) : option nat :=
    match s with
    | String a s' =>
        if cls a
        then match star s' with
             | Some n => Some (S n)
             | None => k s
             end
        else k s
    | EmptyString => k s
    end.

(** [rmatch p s]: the number of characters of [s] that [p] matches at the
    start of [s], if it matches there. *)
Fixpoint rmatch (p : pattern) {struct p} : string -> option nat :=
  match p with
  | [] => fun _ => Some O
  | Lit c :: p' => fun s =>
      match s with
      | String a s' => if Ascii.eqb a c then option_map S (rmatch p' s') else None
      | EmptyString => None
      end
  | Opt c :: p' => fun s =>
      match s with
      | String a s' =>
          if Ascii.eqb a c
          then match rmatch p' s' with
               | Some n => Some (S n)
               | None => rmatch p' s
               end
          else rmatch p' s
      | EmptyString => rmatch p' s
      end
  | Star cls :: p' => star_loop cls (rmatch p')
  | Plus cls :: p' => fun s =>
      match s with
      | String a s' =>
          if cls a then option_map S (star_loop cls (rmatch p') s') else None
      | EmptyString => None
      end
  end.

(** [re.search]: the leftmost position where the pattern matches, with the
    length of the match. *)
Fixpoint search (p : pattern) (s : string) : option (nat * nat) :=
  match rmatch p s with
  | Some n => Some (O, n)
  | None =>
      match s with
      | EmptyString => None
      | String _ s' =>
          match search p s' with
          | Some (i, n) => Some (S i, n)
          | None => None
          end
      end
  end.

(** [re.sub(p, lambda m: repl, s, count=1)] *)
Definition sub1 (p : pattern) (repl s : string) : string :=
  match search p s with
  | Some (i, n) => take i s +:+ repl +:+ drop (i + n) s
  | None => s
  end.

(** [re.findall(p, s)]: the matched texts, left to right, without overlap.
    No pattern here matches the empty string. *)
Fixpoint findall_from (p : pattern) (skip : nat) (s : string) : list string :=
  match s with
  | EmptyString => []
  | String _ s' =>
      match skip with
      | S k => findall_from p k s'
      | O =>
          match rmatch p s with
          | Some n => take n s :: findall_from p (n - 1) s'
          | None => findall_from p O s'
          end
      end
  end.

Definition findall (p : pattern) (s : string) : list string := findall_from p O s.

End Re.

(** ** float64 cells *)

Module Float.

(** A float64 value: finite (an exact rational here) or an IEEE special. *)
Inductive fval : Type :=
| Fin (x : Q)
| PInf
| NInf
| NaN.

(** The same value: rationals up to [Qeq], specials by name.  This is the
    identity of cells, not the IEEE comparison [==] (see [feq]). *)
Definition same (a b : fval) : Prop :=
  match a, b with
  | Fin x, Fin y => (x == y)%Q
  | PInf, PInf | NInf, NInf | NaN, NaN => True
  | _, _ => False
  end.

Definition is_nan (a : fval) : bool :=
  match a with NaN => true | _ => false end.


Definition Qlt_bool (x y : Q) : bool := negb (Qle_bool y x).

(** int64 / int64 on a pandas column or on numpy scalars: true division,
    where a zero denominator gives [inf], [-inf] or [nan] and raises
    nothing. *)
Definition div_int (a b : Z) : fval :=
  if (b =? 0)%Z
  then (if (0 <? a)%Z then PInf else if (a <? 0)%Z then NInf else NaN)
  else Fin (inject_Z a / inject_Z b).

Definition neg (a : fval) : fval :=
  match a with
  | Fin x => Fin (- x)
  | PInf => NInf
  | NInf => PInf
  | NaN => NaN
  end.

(** float * float *)
Definition mul (a b : fval) : fval :=
  match a, b with
  | NaN, _ | _, NaN => NaN
  | Fin x, Fin y => Fin (x * y)
  | Fin x, PInf | PInf, Fin x =>
      if Qlt_bool 0 x then PInf else if Qlt_bool x 0 then NInf else NaN
  | Fin x, NInf | NInf, Fin x =>
      if Qlt_bool 0 x then NInf else if Qlt_bool x 0 then PInf else NaN
  | PInf, PInf | NInf, NInf => PInf
  | PInf, NInf | NInf, PInf => NInf
  end.

(** float - float *)
Definition sub (a b : fval) : fval :=
  match a, b with
  | NaN, _ | _, NaN => NaN
  | Fin x, Fin y => Fin (x - y)
  | Fin _, PInf => NInf
  | Fin _, NInf => PInf
  | PInf, PInf => NaN
  | PInf, _ => PInf
  | NInf, NInf => NaN
  | NInf, _ => NInf
  end.

(** float + float *)
Definition add (a b : fval) : fval := sub a (neg b).

(** Comparisons of a column with a number: false on [nan]. *)
Definition gt (a b : fval) : bool :=
  match a, b with
  | NaN, _ | _, NaN => false
  | Fin x, Fin y => Qlt_bool y x
  | PInf, PInf => false
  | PInf, _ => true
  | NInf, _ => false
  | Fin _, NInf => true
  | Fin _, PInf => false
  end.

Definition lt (a b : fval) : bool := gt b a.

Definition feq (a b : fval) : bool :=
  match a, b with
  | Fin x, Fin y => Qeq_bool x y
  | PInf, PInf | NInf, NInf => true
  | _, _ => false
  end.

(** Nearest integer, halves to the even neighbour (numpy's [rint]). *)
Definition rint (x : Q) : Z :=
  let n := Qnum x in
  let d := Z.pos (Qden x) in
  let f := (n / d)%Z in
  let r := (2 * (n mod d))%Z in
  if (r <? d)%Z then f
  else if (d <? r)%Z then (f + 1)%Z
  else if Z.even f then f else (f + 1)%Z.

Definition pow10 (P : nat) : Q := inject_Z (10 ^ Z.of_nat P).

(** [x.round(P)] on a finite value: scale, [rint], scale back. *)
Definition round_dec (P : nat) (x : Q) : Q :=
  Qred (inject_Z (rint (x * pow10 P)) / pow10 P).

(** [Series.round(P)]: specials pass through. *)
Definition round (P : nat) (a : fval) : fval :=
  match a with
  | Fin x => Fin (round_dec P x)
  | s => s
  end.

Definition hundred : fval := Fin 100.
Definition zero : fval := Fin 0.

End Float.

(** ** The data frame of page metrics *)

Module Metrics.
Import Float.

(** One line of [Pre_vs_Post_Request_Information_Submits.csv]. *)
Record row : Type := Row {
  page : string;
  sessions_pre : Z;
  sessions_post : Z;
  conversions_pre : Z;
  conversions_post : Z
}.

(** A line with the derived columns the loaders add. *)
Record drow : Type := DRow {
  raw : row;
  conversion_rate_pre : fval;
  conversion_rate_post : fval;
  conversion_rate_change : fval;
  conversions_change : Z;
  sessions_change : Z
}.

(** The five assignments of a loader, the precision of [.round] being the
    only thing in which the three loaders differ. *)
Definition derive (P : nat) (r : row) : drow :=
  let rate_pre :=
    round P (mul (div_int (conversions_pre r) (sessions_pre r)) hundred) in
  let rate_post :=
    round P (mul (div_int (conversions_post r) (sessions_post r)) hundred) in
  {| raw := r;
     conversion_rate_pre := rate_pre;
     conversion_rate_post := rate_post;
     conversion_rate_change := round P (sub rate_post rate_pre);
     conversions_change := (conversions_post r - conversions_pre r)%Z;
     sessions_change := (sessions_post r - sessions_pre r)%Z |}.

(** [data[col].sum()] *)
Definition sum (col : row -> Z) (data : list drow) : Z :=
  fold_right (fun r acc => (col (raw r) + acc)%Z) 0%Z data.

(** The locals of the headline chart. *)
Record headline : Type := Headline {
  total_sessions_pre : Z;
  total_sessions_post : Z;
  total_conversions_pre : Z;
  total_conversions_post : Z;
  sessions_change_pct : fval;
  conversions_change_pct : fval;
  overall_conv_rate_pre : fval;
  overall_conv_rate_post : fval;
  conv_rate_change_pp : fval
}.

Definition totals (data : list drow) : headline :=
  let total_sessions_pre := sum sessions_pre data in
  let total_sessions_post := sum sessions_post data in
  let total_conversions_pre := sum conversions_pre data in
  let total_conversions_post := sum conversions_post data in
  let overall_conv_rate_pre :=
    mul (div_int total_conversions_pre total_sessions_pre) hundred in
  let overall_conv_rate_post :=
    mul (div_int total_conversions_post total_sessions_post) hundred in
  {| total_sessions_pre := total_sessions_pre;
     total_sessions_post := total_sessions_post;
     total_conversions_pre := total_conversions_pre;
     total_conversions_post := total_conversions_post;
     sessions_change_pct :=
       mul (div_int (total_sessions_post - total_sessions_pre) total_sessions_pre)
           hundred;
     conversions_change_pct :=
       mul (div_int (total_conversions_post - total_conversions_pre)
                    total_conversions_pre)
           hundred;
     overall_conv_rate_pre := overall_conv_rate_pre;
     overall_conv_rate_post := overall_conv_rate_post;
     conv_rate_change_pp := sub overall_conv_rate_post overall_conv_rate_pre |}.

(** [len(data[data['conversion_rate_change'] > 0])] and its two siblings. *)
Definition wins (data : list drow) : nat :=
  length (List.filter (fun r => gt (conversion_rate_change r) zero) data).

Definition losses (data : list drow) : nat :=
  length (List.filter (fun r => lt (conversion_rate_change r) zero) data).

Definition ties (data : list drow) : nat :=
  length (List.filter (fun r => feq (conversion_rate_change r) zero) data).

(** *** [nlargest] and [nsmallest] on [conversion_rate_change]

    Both keep the first of equal values first ([keep='first']) and put the
    rows whose value is [nan] after all the others. *)

Definition key (r : drow) : fval := conversion_rate_change r.

Fixpoint insert_desc (x : drow) (l : list drow) : list drow :=
  match l with
  | [] => [x]
  | y :: l' =>
      if gt (key y) (key x) then y :: insert_desc x l' else x :: y :: l'
  end.

Fixpoint insert_asc (x : drow) (l : list drow) : list drow :=
  match l with
  | [] => [x]
  | y :: l' =>
      if lt (key y) (key x) then y :: insert_asc x l' else x :: y :: l'
  end.

Definition sort_desc (l : list drow) : list drow := fold_right insert_desc [] l.
Definition sort_asc (l : list drow) : list drow := fold_right insert_asc [] l.

Definition dropna (data : list drow) : list drow :=
  List.filter (fun r => negb (is_nan (key r))) data.

Definition nan_rows (data : list drow) : list drow :=
  List.filter (fun r => is_nan (key r)) data.

Definition nlargest (n : nat) (data : list drow) : list drow :=
  firstn n (sort_desc (dropna data) ++ nan_rows data)%list.

Definition nsmallest (n : nat) (data : list drow) : list drow :=
  firstn n (sort_asc (dropna data) ++ nan_rows data)%list.

(** [pd.concat([top, bottom]).reset_index(drop=True)] *)
Definition concat (top bottom : list drow) : list drow := (top ++ bottom)%list.

Definition top_and_bottom (ktop kbottom : nat) (data : list drow) : list drow :=
  concat (nlargest ktop data) (nsmallest kbottom data).

End Metrics.

(** ** Files, console and exceptions *)

Module IO.

Inductive exn : Type :=
| FileNotFoundError (path : string)
| ParserError (path : string)
| IndexError
| ZeroDivisionError.

(** What a script run can see and change. *)
Record world : Type := World {
  files : gmap string string;
  console : list string
}.

(** A computation: the world after it, and a value or the exception that
    stopped it. *)
Definition io (A : Type) : Type := world -> world * (A + exn).

Definition ret {A} (a : A) : io A := fun w => (w, inl a).

Definition raise {A} (e : exn) : io A := fun w => (w, inr e).

Definition bind {A B} (m : io A) (k : A -> io B) : io B :=
  fun w =>
    match m w with
    | (w', inl a) => k a w'
    | (w', inr e) => (w', inr e)
    end.

(** [with open(path, 'r') as f: f.read()] *)
Definition read_file (path : string) : io string :=
  fun w =>
    match files w !! path with
    | Some content => (w, inl content)
    | None => (w, inr (FileNotFoundError path))
    end.

(** [with open(path, 'w') as f: f.write(content)] *)
Definition write_file (path content : string) : io unit :=
  fun w => (World (<[path := content]> (files w)) (console w), inl tt).

(** [print(line)] *)
Definition print (line : string) : io unit :=
  fun w => (World (files w) (console w ++ [line]), inl tt).

(** A value that may be an exception. *)
Definition lift {A} (e : exn) (o : option A) : io A :=
  match o with
  | Some a => ret a
  | None => raise e
  end.

Definition exn_message (e : exn) : string :=
  match e with
  | FileNotFoundError path => "[Errno 2] No such file or directory: '" +:+ path +:+ "'"
  | ParserError path => "Error tokenizing data: " +:+ path
  | IndexError => "list index out of range"
  | ZeroDivisionError => "division by zero"
  end.

(** [try: body() except Exception as e: print(f"Error: {e}")], the
    pictograph at the head of the line left out. *)
Definition try_except (body : io unit) : io unit :=
  fun w =>
    match body w with
    | (w', inl tt) => (w', inl tt)
    | (w', inr e) => print ("Error: " +:+ exn_message e) w'
    end.

Definition run {A} (m : io A) (w : world) : world := fst (m w).
Definition outcome {A} (m : io A) (w : world) : A + exn := snd (m w).

End IO.

Declare Scope io_scope.
Delimit Scope io_scope with io.
Notation "x <- m ;; k" := (IO.bind m (fun x => k))
  (at level 100, m at next level, right associativity) : io_scope.
Notation "m ;;; k" := (IO.bind m (fun _ => k))
  (at level 100, right associativity) : io_scope.

(** The paths the three scripts share. *)
Definition csv_path : string := "data/Pre_vs_Post_Request_Information_Submits.csv".
Definition report_path : string := "UAGC RFI Conversion Analysis Report.html".

(** ** What is outside the scripts: [pd.read_csv] and the plotly renderer *)

Record externals : Type := Externals {
  (** the rows of a CSV text, unless it does not parse *)
  read_csv : string -> option (list Metrics.row);
  (** [fig.to_html(...)] of the first, second and third chart of a script *)
  first_html : list Metrics.drow -> string;
  second_html : list Metrics.drow -> string;
  third_html : list Metrics.drow -> string;
  (** the summary f-string of lines 382-404 resp. 451-473 *)
  summary_stats : list Metrics.drow -> string
}.

(** [data[1]] *)
Definition item1 (l : list string) : option string := nth_error l 1.

(** [data[0]] of a [split], which is never empty *)
Definition item0 (l : list string) : string :=
  match l with
  | [] => ""
  | x :: _ => x
  end.

(** ** create_charts.py *)

Module CreateCharts.
Import PyStr Re IO Metrics.

Definition output_path : string := "UAGC RFI Conversion Analysis Report_updated.html".

(** The pattern [<img src=Q data:image/png;base64, [^Q]+ Q \s* /? >], written
    here with Q for the double quote and blanks between its items. *)
Definition base64_pattern : pattern :=
  (lits "<img src=" ++ [Lit dq] ++ lits "data:image/png;base64,"
   ++ [Plus (not_char dq); Lit dq; Star is_space; Opt "/"%char; Lit ">"%char])%list.

(** Lines 19-23: rates rounded to 2 places. *)
Definition derive_row (r : row) : drow := derive 2 r.

Definition load_data (ext : externals) : io (list drow) :=
  (text <- read_file csv_path ;;
   rows <- lift (ParserError csv_path) (read_csv ext text) ;;
   ret (map derive_row rows))%io.


Definition create_top_wins_chart (data : list drow) : list drow := nlargest 10 data.

Definition create_wins_losses_summary (data : list drow) : nat * nat * nat :=
  (wins data, losses data, ties data).

(** The number the pie chart shows as [Total Pages]. *)
Definition total_pages_shown (data : list drow) : nat :=
  let '(wins, losses, ties) := create_wins_losses_summary data in
  wins + losses + ties.

Definition chart_container (inner : string) : string :=
  "<div class=" +:+ q +:+ "chart-container" +:+ q +:+ ">" +:+ inner +:+ "</div>".

(** [overall_html.split('<body>')[1].split('</body>')[0]] *)
Definition overall_chart_content (overall_html : string) : option string :=
  match item1 (split "<body>" overall_html) with
  | Some after => Some (item0 (split "</body>" after))
  | None => None
  end.

Definition table_end : string := "</table>".

Definition chart_section (summary_html : string) : string :=
  "
        
<h3>Performance Distribution</h3>
<p>The following chart shows the overall distribution of page performance after the RFI improvements were implemented:</p>
<div class=" +:+ q +:+ "chart-container" +:+ q +:+ ">
" +:+ summary_html +:+ "
</div>
".

(** Lines 236-247: the summary chart goes after the first [</table>]. *)
Definition add_summary_chart (summary_html html_content : string) : string :=
  if contains table_end html_content
  then
    match find table_end html_content with
    | Some i =>
        let insertion_point := i + String.length table_end in
        take insertion_point html_content +:+ chart_section summary_html
          +:+ drop insertion_point html_content
    | None => html_content
    end
  else html_content.

Definition css_insert : string :=
  "
<style>
.chart-container {
    margin: 2rem 0;
    padding: 1rem;
    border-radius: 10px;
    box-shadow: 0 2px 10px rgba(0,0,0,0.1);
    background: white;
}

.plotly-graph-div {
    width: 100% !important;
}
</style>
</head>".

(** Lines 212-266 on the text of the report. *)
Definition patch (overall_html top_wins_html summary_html html_content : string)
  : option string :=
  match overall_chart_content overall_html with
  | None => None
  | Some content =>
      let html_content := sub1 base64_pattern (chart_container content) html_content in
      let html_content := sub1 base64_pattern (chart_container top_wins_html) html_content in
      let html_content := add_summary_chart summary_html html_content in
      Some (replace_all "</head>" css_insert html_content)
  end.

Definition update_html_with_charts (ext : externals) : io unit :=
  (data <- load_data ext ;;
   let overall_html := first_html ext data in
   let top_wins_html := second_html ext data in
   let summary_html := third_html ext data in
   html_content <- read_file report_path ;;
   html_content <- lift IndexError
                     (patch overall_html top_wins_html summary_html html_content) ;;
   write_file output_path html_content ;;;
   print "HTML report updated successfully!" ;;;
   print "New file created: UAGC RFI Conversion Analysis Report_updated.html")%io.

Definition main (ext : externals) : io unit := update_html_with_charts ext.

End CreateCharts.

(** ** create_final_charts.py

    In the printed lines the pictographs at the head of a line are left
    out. *)

Module CreateFinalCharts.
Import PyStr Re IO Metrics.

Definition output_path : string := "UAGC RFI Conversion Analysis Report_enhanced.html".

(** The pattern [<img [^>]* src=Q data:image/png;base64, [^Q]+ [^>]* /? >],
    written here with Q for the double quote and blanks between its items. *)
Definition base64_pattern : pattern :=
  (lits "<img" ++ [Star (not_char ">"%char)] ++ lits "src=" ++ [Lit dq]
   ++ lits "data:image/png;base64,"
   ++ [Plus (not_char dq); Star (not_char ">"%char); Opt "/"%char; Lit ">"%char])%list.

(** Lines 19-23: rates rounded to 4 places. *)
Definition derive_row (r : row) : drow := derive 4 r.

Definition load_and_process_data (ext : externals) : io (list drow) :=
  (print "Loading data..." ;;;
   text <- read_file csv_path ;;
   rows <- lift (ParserError csv_path) (read_csv ext text) ;;
   let data := map derive_row rows in
   print ("Loaded " +:+ pretty (length data) +:+ " pages of data") ;;;
   ret data)%io.

(** Lines 32-42 and 98-100, and the [wins/len(data)] of line 154, a
    division of Python integers. *)
Definition create_executive_summary_chart (data : list drow)
  : option (headline * (nat * nat * nat)) :=
  match length data with
  | O => None
  | S _ => Some (totals data, (wins data, losses data, ties data))
  end.

(** Lines 168-172 *)
Definition create_top_performers_chart (data : list drow) : list drow :=
  concat (nlargest 12 data) (nsmallest 3 data).

(** Lines 212-214 *)
Definition create_performance_distribution_chart (data : list drow) : nat * nat * nat :=
  (wins data, losses data, ties data).

(** The number the pie chart shows as [Total Pages]. *)
Definition total_pages_shown (data : list drow) : nat :=
  let '(wins, losses, neutral) := create_performance_distribution_chart data in
  wins + losses + neutral.

Definition placeholder (i : nat) : string :=
  "__CHART_PLACEHOLDER_" +:+ pretty i +:+ "__".

(** The loop of lines 254-256, [i] being the index of the head of
    [matches]. *)
Fixpoint replace_matches (i : nat) (matches : list string) (html_content : string)
  : string :=
  match matches with
  | [] => html_content
  | m :: rest =>
      replace_matches (S i) rest (replace_first m (placeholder i) html_content)
  end.

Definition find_and_replace_images (html_content : string) : io (string * nat) :=
  let matches := findall base64_pattern html_content in
  (print ("Found " +:+ pretty (length matches) +:+ " base64 images") ;;;
   ret (replace_matches 0 matches html_content, length matches))%io.

(** Lines 283-287 *)
Definition extract_chart_div (html_string : string) : string :=
  if contains "<body>" html_string && contains "</body>" html_string
  then
    match item1 (split "<body>" html_string) with
    | Some after => strip (item0 (split "</body>" after))
    | None => html_string
    end
  else html_string.

Definition chart_container (cls inner : string) : string :=
  "<div class=" +:+ q +:+ "chart-container " +:+ cls +:+ q +:+ ">" +:+ inner +:+ "</div>".

(** The loop of lines 309-315 from index [i] on; it threads the text. *)
Fixpoint fill_placeholders (i : nat) (chart_containers : list string)
  (html_content : string) : io string :=
  match chart_containers with
  | [] => ret html_content
  | chart_html :: rest =>
      if contains (placeholder i) html_content
      then (print ("Replaced chart " +:+ pretty (i + 1)) ;;;
            fill_placeholders (S i) rest
              (replace_all (placeholder i) chart_html html_content))%io
      else (print ("Warning: Placeholder " +:+ pretty i +:+ " not found") ;;;
            fill_placeholders (S i) rest html_content)%io
  end.

Definition enhanced_css : string :=
  "
<style>
.chart-container {
    margin: 2rem 0;
    padding: 1.5rem;
    border-radius: 12px;
    box-shadow: 0 4px 15px rgba(0,0,0,0.1);
    background: white;
    border: 1px solid #e0e0e0;
}

.chart-container.executive-summary {
    background: linear-gradient(135deg, #f5f7fa 0%, #c3cfe2 100%);
    border: 2px solid #305496;
}

.chart-container.top-performers {
    background: linear-gradient(135deg, #e8f5e8 0%, #a8e6cf 100%);
}

.chart-container.performance-distribution {
    background: linear-gradient(135deg, #fff3e0 0%, #ffcc80 100%);
}

.plotly-graph-div {
    width: 100% !important;
    border-radius: 8px;
}

.modebar {
    opacity: 0.7;
}

.modebar:hover {
    opacity: 1;
}

@media (max-width: 768px) {
    .chart-container {
        margin: 1rem 0;
        padding: 1rem;
    }
}

@media print {
    .chart-container {
        break-inside: avoid;
        box-shadow: none;
        border: 1px solid #ccc;
    }
}
</style>
</head>".

(** Lines 299-317: the images, then the charts. *)
Definition replace_images (executive_div performers_html distribution_html : string)
  (html_content : string) : io (string * nat) :=
  (found <- find_and_replace_images html_content ;;
   let '(html_content, num_images) := found in
   html_content <-
     (if (3 <=? num_images)%nat
      then
        let chart_containers :=
          [ chart_container "executive-summary" executive_div;
            chart_container "top-performers" performers_html;
            chart_container "performance-distribution" distribution_html ] in
        fill_placeholders 0 chart_containers html_content
      else
        (print ("Warning: Expected 3 images, found " +:+ pretty num_images) ;;;
         ret html_content)) ;;
   ret (html_content, num_images))%io.

(** Lines 374 and 407: the style block and the summary block. *)
Definition add_css_and_summary (summary : string) (html_content : string) : string :=
  let html_content := replace_all "</head>" enhanced_css html_content in
  replace_all "</body>" (summary +:+ "</body>") html_content.

Definition update_html_with_charts (ext : externals) : io unit :=
  (print "Processing data and creating charts..." ;;;
   data <- load_and_process_data ext ;;
   print "Creating executive summary chart..." ;;;
   _ <- lift ZeroDivisionError (create_executive_summary_chart data) ;;
   print "Creating top performers chart..." ;;;
   print "Creating performance distribution chart..." ;;;
   print "Converting charts to HTML..." ;;;
   let executive_html := first_html ext data in
   let performers_html := second_html ext data in
   let distribution_html := third_html ext data in
   let executive_div := extract_chart_div executive_html in
   print "Reading original HTML file..." ;;;
   html_content <- read_file report_path ;;
   print "Finding and replacing images..." ;;;
   replaced <-
     replace_images executive_div performers_html distribution_html html_content ;;
   let '(html_content, num_images) := replaced in
   let html_content := add_css_and_summary (summary_stats ext data) html_content in
   print "Saving enhanced HTML file..." ;;;
   write_file output_path html_content ;;;
   print "
Report enhancement complete!" ;;;
   print ("Replaced " +:+ pretty num_images +:+ " base64 images with interactive charts") ;;;
   print "Created 3 new interactive visualizations" ;;;
   print "Enhanced file saved as: UAGC RFI Conversion Analysis Report_enhanced.html")%io.

Definition main (ext : externals) : io unit :=
  try_except (update_html_with_charts ext).

End CreateFinalCharts.

(** ** create_enhanced_charts.py

    In the printed lines the pictographs at the head of a line are left
    out. *)

Module CreateEnhancedCharts.
Import PyStr Re IO Metrics.

Definition output_path : string := "UAGC RFI Conversion Analysis Report_enhanced.html".

(** The same pattern as in create_charts.py. *)
Definition base64_pattern : pattern :=
  (lits "<img src=" ++ [Lit dq] ++ lits "data:image/png;base64,"
   ++ [Plus (not_char dq); Lit dq; Star is_space; Opt "/"%char; Lit ">"%char])%list.

(** Lines 21-25: rates rounded to 4 places. *)
Definition derive_row (r : row) : drow := derive 4 r.

(** Line 26, a column of its own. *)
Definition percent_change_conversions (r : row) : Float.fval :=
  Float.round 2
    (Float.mul
       (Float.sub (Float.div_int (conversions_post r) (conversions_pre r)) (Float.Fin 1))
       Float.hundred).

Definition load_and_process_data (ext : externals) : io (list drow) :=
  (print "Loading data..." ;;;
   text <- read_file csv_path ;;
   rows <- lift (ParserError csv_path) (read_csv ext text) ;;
   let pre_post_data := map derive_row rows in
   print ("Loaded " +:+ pretty (length pre_post_data) +:+ " pages of data") ;;;
   ret pre_post_data)%io.

(** Lines 35-45 and 105-107, and the [wins/len(data)] of line 146, a
    division of Python integers. *)
Definition create_executive_summary_chart (data : list drow)
  : option (headline * (nat * nat * nat)) :=
  match length data with
  | O => None
  | S _ => Some (totals data, (wins data, losses data, ties data))
  end.

(** Lines 190-194 *)
Definition create_top_performers_chart (data : list drow) : list drow :=
  concat (nlargest 15 data) (nsmallest 5 data).

Definition chart_container (cls inner : string) : string :=
  "<div class=" +:+ q +:+ "chart-container " +:+ cls +:+ q +:+ ">" +:+ inner +:+ "</div>".

(** The replacement of line 369. *)
Definition executive_inner (executive_html : string) : string :=
  if contains "<body>" executive_html
  then
    match item1 (split "<body>" executive_html) with
    | Some after => item0 (split "</body>" after)
    | None => executive_html
    end
  else executive_html.

(** Lines 367-388: three substitutions, each of the first image left. *)
Definition replace_images (executive_html performers_html distribution_html : string)
  (html_content : string) : string :=
  let html_content :=
    sub1 base64_pattern
      (chart_container "executive-dashboard" (executive_inner executive_html))
      html_content in
  let html_content :=
    sub1 base64_pattern (chart_container "top-performers" performers_html)
      html_content in
  sub1 base64_pattern
    (chart_container "performance-distribution" distribution_html) html_content.

Definition enhanced_css : string :=
  "
<style>
.chart-container {
    margin: 2rem 0;
    padding: 1.5rem;
    border-radius: 12px;
    box-shadow: 0 4px 15px rgba(0,0,0,0.1);
    background: white;
    border: 1px solid #e0e0e0;
}

.chart-container.executive-dashboard {
    background: linear-gradient(135deg, #f5f7fa 0%, #c3cfe2 100%);
    border: 2px solid #305496;
}

.chart-container.top-performers {
    background: linear-gradient(135deg, #e8f5e8 0%, #a8e6cf 100%);
}

.chart-container.performance-distribution {
    background: linear-gradient(135deg, #fff3e0 0%, #ffcc80 100%);
}

.plotly-graph-div {
    width: 100% !important;
    border-radius: 8px;
}

/* Enhanced table styling */
.modebar {
    opacity: 0.7;
}

.modebar:hover {
    opacity: 1;
}

/* Responsive design */
@media (max-width: 768px) {
    .chart-container {
        margin: 1rem 0;
        padding: 1rem;
    }
}

/* Print styles */
@media print {
    .chart-container {
        break-inside: avoid;
        box-shadow: none;
        border: 1px solid #ccc;
    }
}
</style>
</head>".

Definition add_css_and_summary (summary : string) (html_content : string) : string :=
  let html_content := replace_all "</head>" enhanced_css html_content in
  replace_all "</body>" (summary +:+ "</body>") html_content.

Definition update_html_with_enhanced_charts (ext : externals) : io unit :=
  (print "Processing data and creating charts..." ;;;
   data <- load_and_process_data ext ;;
   _ <- lift ZeroDivisionError (create_executive_summary_chart data) ;;
   print "Converting charts to HTML..." ;;;
   let executive_html := first_html ext data in
   let performers_html := second_html ext data in
   let distribution_html := third_html ext data in
   print "Reading HTML file..." ;;;
   html_content <- read_file report_path ;;
   print "Replacing images with interactive charts..." ;;;
   let current_images := length (findall base64_pattern html_content) in
   print ("Found " +:+ pretty current_images +:+ " base64 images to replace") ;;;
   let html_content :=
     replace_images executive_html performers_html distribution_html html_content in
   let html_content := add_css_and_summary (summary_stats ext data) html_content in
   print "Saving enhanced HTML file..." ;;;
   write_file output_path html_content ;;;
   let remaining_images := length (findall base64_pattern html_content) in
   print "
Report enhancement complete!" ;;;
   print ("Replaced "
          +:+ pretty (Z.of_nat current_images - Z.of_nat remaining_images)%Z
          +:+ " base64 images with interactive charts") ;;;
   print "Created 3 new interactive visualizations" ;;;
   print "Enhanced file saved as: UAGC RFI Conversion Analysis Report_enhanced.html" ;;;
   print ("Remaining base64 images: " +:+ pretty remaining_images) ;;;
   (if (0 <? remaining_images)%nat
    then print "Some images were not replaced. You may need to check the HTML structure."
    else ret tt))%io.

Definition main (ext : externals) : io unit :=
  try_except (update_html_with_enhanced_charts ext).

End CreateEnhancedCharts.

(** * Sample inputs *)

Module Samples.
Import PyStr IO Metrics.

(** The zero-sessions line of the specification. *)
Definition zero_row : row := Row "/zero" 0 50 0 2.


(** A renderer that emits a whole HTML page around a chart, as plotly's
    [to_html] does by default, and a summary block. *)
Definition page_of (chart : string) : string :=
  "<html><head><meta charset=" +:+ q +:+ "utf-8" +:+ q +:+ " /></head><body>"
  +:+ chart +:+ "</body></html>".

Definition sample_ext (rows : list row) : externals :=
  {| read_csv := fun _ => Some rows;
     first_html := fun _ => page_of "<div id=first></div>";
     second_html := fun _ => page_of "<div id=second></div>";
     third_html := fun _ => page_of "<div id=third></div>";
     summary_stats := fun _ => "<div class=summary></div>" |}.

(** A file system with the CSV file and the report. *)
Definition sample_world (report : string) : world :=
  {| files := <[csv_path := "page,sessions_pre,sessions_post,conversions_pre,conversions_post"]>
                (<[report_path := report]> ∅);
     console := [] |}.

(** An embedded image with the given payload. *)
Definition img (payload : string) : string :=
  "<img src=" +:+ q +:+ "data:image/png;base64," +:+ payload +:+ q +:+ ">".

Fixpoint paragraphs (payloads : list string) : string :=
  match payloads with
  | [] => ""
  | p :: rest => "<p>" +:+ img p +:+ "</p>" +:+ paragraphs rest
  end.

(** A report with one embedded image per payload, a table, a head and a
    body. *)
Definition report (payloads : list string) : string :=
  "<html><head><title>Report</title></head><body>" +:+ paragraphs payloads
  +:+ "<table><tr><td>1</td></tr></table></body></html>".

End Samples.

(** * Properties of the derived metrics *)

Module MetricsFacts.
Import Float Metrics.

(** ** Comparisons of a cell with zero *)

Lemma Qlt_bool_iff (x y : Q) : Qlt_bool x y = true <-> (x < y)%Q.
Proof.
  unfold Qlt_bool. rewrite negb_true_iff. split.
  - intros H. apply Qnot_le_lt. intros Hle.
    apply Qle_bool_iff in Hle. congruence.
  - intros H. destruct (Qle_bool y x) eqn:E; [|reflexivity].
    apply Qle_bool_iff in E. exfalso. exact (Qlt_not_le _ _ H E).
Qed.

(** A finite value is above zero, below zero or equal to it, and only one
    of the three. *)
Lemma finite_trichotomy (x : Q) :
  (Nat.b2n (Qlt_bool 0 x) + Nat.b2n (Qlt_bool x 0) + Nat.b2n (Qeq_bool x 0) = 1)%nat.
Proof.
  destruct (Q_dec x 0) as [[Hlt | Hgt] | Heq].
  - assert (A : Qlt_bool x 0 = true) by (apply Qlt_bool_iff; exact Hlt).
    assert (B : Qlt_bool 0 x = false).
    { destruct (Qlt_bool 0 x) eqn:E; [|reflexivity].
      apply Qlt_bool_iff in E. exfalso. exact (Qlt_irrefl _ (Qlt_trans _ _ _ Hlt E)). }
    assert (C : Qeq_bool x 0 = false).
    { destruct (Qeq_bool x 0) eqn:E; [|reflexivity].
      apply Qeq_bool_iff in E. rewrite E in Hlt. exfalso. exact (Qlt_irrefl _ Hlt). }
    rewrite A, B, C. reflexivity.
  - assert (A : Qlt_bool 0 x = true) by (apply Qlt_bool_iff; exact Hgt).
    assert (B : Qlt_bool x 0 = false).
    { destruct (Qlt_bool x 0) eqn:E; [|reflexivity].
      apply Qlt_bool_iff in E. exfalso. exact (Qlt_irrefl _ (Qlt_trans _ _ _ Hgt E)). }
    assert (C : Qeq_bool x 0 = false).
    { destruct (Qeq_bool x 0) eqn:E; [|reflexivity].
      apply Qeq_bool_iff in E. rewrite E in Hgt. exfalso. exact (Qlt_irrefl _ Hgt). }
    rewrite A, B, C. reflexivity.
  - assert (C : Qeq_bool x 0 = true) by (apply Qeq_bool_iff; exact Heq).
    assert (A : Qlt_bool 0 x = false).
    { destruct (Qlt_bool 0 x) eqn:E; [|reflexivity].
      apply Qlt_bool_iff in E. rewrite Heq in E. exfalso. exact (Qlt_irrefl _ E). }
    assert (B : Qlt_bool x 0 = false).
    { destruct (Qlt_bool x 0) eqn:E; [|reflexivity].
      apply Qlt_bool_iff in E. rewrite Heq in E. exfalso. exact (Qlt_irrefl _ E). }
    rewrite A, B, C. reflexivity.
Qed.

(** A cell that is a number falls in exactly one class. *)
Lemma class_of_number (v : fval) :
  is_nan v = false ->
  (Nat.b2n (gt v zero) + Nat.b2n (lt v zero) + Nat.b2n (feq v zero) = 1)%nat.
Proof.
  destruct v as [x | | |]; simpl; intros H; try reflexivity; try discriminate.
  apply finite_trichotomy.
Qed.

(** A [nan] cell falls in no class. *)
Lemma class_of_nan (v : fval) :
  is_nan v = true ->
  (Nat.b2n (gt v zero) + Nat.b2n (lt v zero) + Nat.b2n (feq v zero) = 0)%nat.
Proof. destruct v; simpl; intros H; try discriminate; reflexivity. Qed.

Lemma length_filter_cons {A} (f : A -> bool) (a : A) (l : list A) :
  length (List.filter f (a :: l)) = (Nat.b2n (f a) + length (List.filter f l))%nat.
Proof. simpl. destruct (f a); reflexivity. Qed.

(** Without [nan] in the change column the three counts add up to the
    number of rows. *)
Lemma classes_cover_numbers (data : list drow) :
  Forall (fun r => is_nan (conversion_rate_change r) = false) data ->
  (wins data + losses data + ties data = length data)%nat.
Proof.
  unfold wins, losses, ties.
  induction 1 as [| r l Hr Hl IH].
  - reflexivity.
  - rewrite !length_filter_cons. cbn [length].
    pose proof (class_of_number _ Hr) as Hc. cbv beta. lia.
Qed.

(** Every row with [nan] in the change column is missing from the sum of
    the three counts. *)
Lemma classes_miss_nan (data : list drow) :
  (wins data + losses data + ties data + length (nan_rows data) = length data)%nat.
Proof.
  unfold wins, losses, ties, nan_rows, key.
  induction data as [| r l IH].
  - reflexivity.
  - rewrite !length_filter_cons. cbn [length]. cbv beta.
    destruct (is_nan (conversion_rate_change r)) eqn:E.
    + pose proof (class_of_nan _ E) as Hc. cbn [Nat.b2n]. lia.
    + pose proof (class_of_number _ E) as Hc. cbn [Nat.b2n]. lia.
Qed.

(** ** Rounding *)

(** [rint] gives a nearest integer. *)
Lemma rint_nearest (x : Q) :
  (inject_Z (rint x) - x <= 1 # 2)%Q /\ (x - inject_Z (rint x) <= 1 # 2)%Q.
Proof.
  destruct x as [n d]. unfold rint. cbn [Qnum Qden].
  pose proof (Z.div_mod n (Z.pos d) ltac:(lia)) as Hdm.
  pose proof (Z.mod_pos_bound n (Z.pos d) ltac:(lia)) as Hb.
  set (f := (n / Z.pos d)%Z) in *. set (m := (n mod Z.pos d)%Z) in *.
  assert (Hx : forall z : Z, (inject_Z z - (n # d) == (z * Z.pos d - n) # d)%Q).
  { intros z. unfold Qeq, Qminus, Qplus, Qopp, inject_Z. cbn. lia. }
  assert (Hy : forall z : Z, ((n # d) - inject_Z z == (n - z * Z.pos d) # d)%Q).
  { intros z. unfold Qeq, Qminus, Qplus, Qopp, inject_Z. cbn. lia. }
  destruct (2 * m <? Z.pos d)%Z eqn:E1; [|destruct (Z.pos d <? 2 * m)%Z eqn:E2;
    [|destruct (Z.even f)]];
    rewrite Hx, Hy; unfold Qle; cbn [Qnum Qden];
    try apply Z.ltb_lt in E1; try apply Z.ltb_ge in E1;
    try apply Z.ltb_lt in E2; try apply Z.ltb_ge in E2; split; nia.
Qed.

Lemma pow10_pos (P : nat) : (0 < pow10 P)%Q.
Proof.
  unfold pow10. change 0%Q with (inject_Z 0). rewrite <- Zlt_Qlt.
  apply Z.pow_pos_nonneg; lia.
Qed.

Lemma pow10_nonzero (P : nat) : ~ (pow10 P == 0)%Q.
Proof.
  intros E. pose proof (pow10_pos P) as Hp. rewrite E in Hp.
  exact (Qlt_irrefl _ Hp).
Qed.


Lemma round_dec_units (P : nat) (x : Q) :
  (round_dec P x * pow10 P == inject_Z (rint (x * pow10 P)))%Q.
Proof.
  pose proof (pow10_nonzero P) as Hne.
  unfold round_dec. rewrite Qred_correct. field. exact Hne.
Qed.

End MetricsFacts.

(** * The derived columns (claims C2, C3) *)

Module DerivedFields.
Import Float Metrics IO Samples.

(** The unrounded rates of a line. *)
Definition raw_rate_pre (r : row) : fval :=
  mul (div_int (conversions_pre r) (sessions_pre r)) hundred.

Definition raw_rate_post (r : row) : fval :=
  mul (div_int (conversions_post r) (sessions_post r)) hundred.


(** The derived columns as the loaders compute them with precision [P]:
    every rate column is rounded. *)
Definition rounded_fields (P : nat) (d : drow) : Prop :=
  conversion_rate_pre d = round P (raw_rate_pre (raw d)) /\
  conversion_rate_post d = round P (raw_rate_post (raw d)) /\
  conversion_rate_change d
    = round P (sub (conversion_rate_post d) (conversion_rate_pre d)) /\
  conversions_change d = (conversions_post (raw d) - conversions_pre (raw d))%Z /\
  sessions_change d = (sessions_post (raw d) - sessions_pre (raw d))%Z.



Lemma derive_rounded (P : nat) (r : row) : rounded_fields P (derive P r).
Proof. repeat split. Qed.




(** The example of the specification: 5 of 100, then 9 of 120. *)
Example derived_fields_example :
  let d := CreateFinalCharts.derive_row (Row "/a" 100 120 5 9) in
  same (conversion_rate_pre d) (Fin 5) /\
  same (conversion_rate_post d) (Fin (75 # 10)) /\
  same (conversion_rate_change d) (Fin (25 # 10)).
Proof. vm_compute. repeat split. Qed.

(** ** Zero sessions *)













(** The zero-sessions line of the specification: the rate before is [nan],
    and so is the change. *)
Example zero_row_rates :
  conversion_rate_pre (CreateCharts.derive_row zero_row) = NaN /\
  conversion_rate_change (CreateCharts.derive_row zero_row) = NaN /\
  same (conversion_rate_post (CreateCharts.derive_row zero_row)) (Fin 4).
Proof. vm_compute. repeat split. Qed.

End DerivedFields.



(** * The headline totals (claim C4) *)

Module Aggregate.
Import Float Metrics Samples.

(** [Series.mean()] of a column of cells. *)
Definition mean (l : list fval) : fval :=
  match l with
  | [] => NaN
  | _ => mul (fold_right add zero l) (Fin (1 / inject_Z (Z.of_nat (length l))))
  end.


Definition mean_of_row_rates_post (data : list drow) : fval :=
  mean (map conversion_rate_post data).


End Aggregate.

(** * The three classes of lines (claim C6) *)

Module Classification.
Import Float Metrics Samples.

(** C6 fails on the zero-sessions line: its change is [nan], which is
    neither above, nor below, nor equal to zero, so the three counts of
    create_charts.py and of create_final_charts.py add up to 0 on a data
    frame of one line, and 0 is what their pie charts show as the total of
    the pages. *)
Theorem nan_row_in_no_class :
  let data := map CreateCharts.derive_row [zero_row] in
  let data' := map CreateFinalCharts.derive_row [zero_row] in
  CreateCharts.create_wins_losses_summary data = (0, 0, 0)%nat /\
  CreateCharts.total_pages_shown data = 0%nat /\
  length data = 1%nat /\
  CreateFinalCharts.create_performance_distribution_chart data' = (0, 0, 0)%nat /\
  CreateFinalCharts.total_pages_shown data' = 0%nat /\
  length data' = 1%nat.
Proof. vm_compute. repeat split. Qed.

End Classification.

(** * Top and bottom lines by change (claim C10) *)

Module Ranking.
Import Float Metrics.

(** ** Lists sorted by a strict order *)

Section StrictlySorted.
Context {A : Type} (R : A -> A -> Prop).
Hypothesis R_irrefl : forall a, ~ R a a.
Hypothesis R_trans : forall a b c, R a b -> R b c -> R a c.

Lemma sorted_head_before (a : A) (l : list A) :
  StronglySorted R (a :: l) -> forall b, List.In b l -> R a b.
Proof.
  intros H b Hb. apply StronglySorted_inv in H. destruct H as [_ H].
  exact (proj1 (List.Forall_forall _ _) H b Hb).
Qed.

(** Two sorted arrangements of the same elements are the same list. *)
Lemma sorted_unique (l1 : list A) :
  forall l2, StronglySorted R l1 -> StronglySorted R l2 ->
             Permutation l1 l2 -> l1 = l2.
Proof.
  induction l1 as [| a l1 IH]; intros l2 S1 S2 HP.
  - apply Permutation_nil in HP. congruence.
  - destruct l2 as [| b l2].
    + apply Permutation_sym, Permutation_nil in HP. discriminate HP.
    + assert (Hab : a = b).
      { assert (Ha : List.In a (b :: l2))
          by (apply (Permutation_in _ HP); left; reflexivity).
        assert (Hb : List.In b (a :: l1))
          by (apply (Permutation_in _ (Permutation_sym HP)); left; reflexivity).
        destruct Ha as [Ha | Ha]; [congruence|].
        destruct Hb as [Hb | Hb]; [congruence|].
        exfalso. apply (R_irrefl a).
        apply (R_trans a b a).
        - exact (sorted_head_before a l1 S1 b Hb).
        - exact (sorted_head_before b l2 S2 a Ha). }
      subst b. f_equal.
      apply IH.
      * apply StronglySorted_inv in S1. tauto.
      * apply StronglySorted_inv in S2. tauto.
      * exact (Permutation_cons_inv HP).
Qed.

Lemma sorted_NoDup (l : list A) : StronglySorted R l -> List.NoDup l.
Proof.
  induction 1 as [| a l Hl IH Ha].
  - constructor.
  - constructor; [|exact IH].
    intros Hin. apply (R_irrefl a).
    exact (proj1 (List.Forall_forall _ _) Ha a Hin).
Qed.

Lemma sorted_app (l1 l2 : list A) :
  StronglySorted R l1 -> StronglySorted R l2 ->
  (forall a b, List.In a l1 -> List.In b l2 -> R a b) ->
  StronglySorted R (l1 ++ l2).
Proof.
  induction l1 as [| a l1 IH]; intros S1 S2 H.
  - exact S2.
  - simpl. apply StronglySorted_inv in S1. destruct S1 as [S1 Ha].
    constructor.
    + apply IH; [exact S1 | exact S2 |].
      intros x y Hx Hy. apply H; [right; exact Hx | exact Hy].
    + apply List.Forall_forall. intros x Hx. apply List.in_app_or in Hx.
      destruct Hx as [Hx | Hx].
      * exact (proj1 (List.Forall_forall _ _) Ha x Hx).
      * apply H; [left; reflexivity | exact Hx].
Qed.
End StrictlySorted.

(** The reverse of a list sorted by [R] is sorted by the converse of [R]. *)
Lemma sorted_rev {A : Type} (R : A -> A -> Prop) (l : list A) :
  StronglySorted R l -> StronglySorted (fun a b => R b a) (rev l).
Proof.
  induction 1 as [| a l Hl IH Ha].
  - constructor.
  - simpl. apply sorted_app.
    + exact IH.
    + constructor; constructor.
    + intros x y Hx Hy. destruct Hy as [<- | []].
      apply List.in_rev in Hx.
      exact (proj1 (List.Forall_forall _ _) Ha x Hx).
Qed.

(** ** The order of the change column *)

Definition above (a b : drow) : Prop := gt (key a) (key b) = true.
Definition below (a b : drow) : Prop := lt (key a) (key b) = true.

Lemma Qlt_bool_irrefl (x : Q) : Qlt_bool x x = false.
Proof.
  destruct (Qlt_bool x x) eqn:E; [|reflexivity].
  apply MetricsFacts.Qlt_bool_iff in E. exfalso. exact (Qlt_irrefl _ E).
Qed.

Lemma gt_irrefl (v : fval) : gt v v = false.
Proof. destruct v; simpl; try reflexivity. apply Qlt_bool_irrefl. Qed.

Lemma gt_trans (a b c : fval) : gt a b = true -> gt b c = true -> gt a c = true.
Proof.
  destruct a, b, c; simpl; try discriminate; try reflexivity.
  intros H1 H2. apply MetricsFacts.Qlt_bool_iff in H1, H2.
  apply MetricsFacts.Qlt_bool_iff. exact (Qlt_trans _ _ _ H2 H1).
Qed.

(** Two numbers that are not equal are ordered one way or the other. *)
Lemma gt_total (a b : fval) :
  is_nan a = false -> is_nan b = false -> feq a b = false ->
  gt a b = true \/ gt b a = true.
Proof.
  destruct a as [x | | |], b as [y | | |]; simpl; intros Ha Hb Hab;
    try discriminate; auto.
  destruct (Q_dec x y) as [[Hlt | Hgt] | Heq].
  - right. apply MetricsFacts.Qlt_bool_iff. exact Hlt.
  - left. apply MetricsFacts.Qlt_bool_iff. exact Hgt.
  - apply Qeq_bool_iff in Heq. congruence.
Qed.

Lemma feq_sym (a b : fval) : feq a b = feq b a.
Proof.
  destruct a as [x | | |], b as [y | | |]; simpl; try reflexivity.
  destruct (Qeq_bool x y) eqn:E1, (Qeq_bool y x) eqn:E2; try reflexivity.
  - apply Qeq_bool_iff in E1. symmetry in E1. apply Qeq_bool_iff in E1. congruence.
  - apply Qeq_bool_iff in E2. symmetry in E2. apply Qeq_bool_iff in E2. congruence.
Qed.

Lemma above_irrefl (a : drow) : ~ above a a.
Proof. unfold above. rewrite gt_irrefl. discriminate. Qed.

Lemma above_trans (a b c : drow) : above a b -> above b c -> above a c.
Proof. unfold above. apply gt_trans. Qed.

Lemma below_irrefl (a : drow) : ~ below a a.
Proof. unfold below, lt. rewrite gt_irrefl. discriminate. Qed.

Lemma below_trans (a b c : drow) : below a b -> below b c -> below a c.
Proof. unfold below, lt. intros H1 H2. exact (gt_trans _ _ _ H2 H1). Qed.

(** ** Insertion into a sorted list *)

Section Insertion.
Variable before : drow -> drow -> bool.
Hypothesis before_irrefl : forall a, before a a = false.
Hypothesis before_trans :
  forall a b c, before a b = true -> before b c = true -> before a c = true.

Fixpoint insert_by (x : drow) (l : list drow) : list drow :=
  match l with
  | [] => [x]
  | y :: l' => if before y x then y :: insert_by x l' else x :: y :: l'
  end.

Definition sort_by (l : list drow) : list drow := fold_right insert_by [] l.

Let R (a b : drow) : Prop := before a b = true.

Lemma insert_by_perm (x : drow) (l : list drow) :
  Permutation (insert_by x l) (x :: l).
Proof.
  induction l as [| y l IH]; simpl.
  - apply Permutation_refl.
  - destruct (before y x).
    + apply Permutation_trans with (y :: x :: l).
      * apply perm_skip. exact IH.
      * apply perm_swap.
    + apply Permutation_refl.
Qed.

Lemma sort_by_perm (l : list drow) : Permutation (sort_by l) l.
Proof.
  induction l as [| x l IH]; simpl.
  - apply Permutation_refl.
  - apply Permutation_trans with (x :: sort_by l).
    + apply insert_by_perm.
    + apply perm_skip. exact IH.
Qed.

Lemma insert_by_sorted (x : drow) (l : list drow) :
  StronglySorted R l ->
  (forall y, List.In y l -> R x y \/ R y x) ->
  StronglySorted R (insert_by x l).
Proof.
  induction l as [| y l IH]; intros S H; simpl.
  - constructor; constructor.
  - pose proof (StronglySorted_inv S) as [Sl Hy].
    destruct (before y x) eqn:E.
    + constructor.
      * apply IH; [exact Sl|]. intros z Hz. apply H. right. exact Hz.
      * apply List.Forall_forall. intros z Hz.
        apply (Permutation_in _ (insert_by_perm x l)) in Hz.
        destruct Hz as [<- | Hz]; [exact E|].
        exact (proj1 (List.Forall_forall _ _) Hy z Hz).
    + assert (Hxy : R x y).
      { destruct (H y (or_introl eq_refl)) as [Hxy | Hyx]; [exact Hxy|].
        unfold R in Hyx. congruence. }
      constructor; [exact S|].
      apply List.Forall_forall. intros z [<- | Hz]; [exact Hxy|].
      apply (before_trans x y z Hxy).
      exact (proj1 (List.Forall_forall _ _) Hy z Hz).
Qed.

Lemma sort_by_sorted (l : list drow) :
  ForallOrdPairs (fun a b => R a b \/ R b a) l ->
  StronglySorted R (sort_by l).
Proof.
  induction 1 as [| x l Hx Hl IH]; simpl.
  - constructor.
  - apply insert_by_sorted; [exact IH|].
    intros y Hy. apply (Permutation_in _ (sort_by_perm l)) in Hy.
    exact (proj1 (List.Forall_forall _ _) Hx y Hy).
Qed.
End Insertion.

Lemma insert_desc_by (x : drow) (l : list drow) :
  insert_desc x l = insert_by (fun a b => gt (key a) (key b)) x l.
Proof. induction l as [| y l IH]; simpl; [|rewrite IH]; reflexivity. Qed.

Lemma insert_asc_by (x : drow) (l : list drow) :
  insert_asc x l = insert_by (fun a b => lt (key a) (key b)) x l.
Proof. induction l as [| y l IH]; simpl; [|rewrite IH]; reflexivity. Qed.

Lemma sort_desc_by (l : list drow) :
  sort_desc l = sort_by (fun a b => gt (key a) (key b)) l.
Proof.
  induction l as [| x l IH]; [reflexivity|].
  change (insert_desc x (sort_desc l)
          = insert_by (fun a b => gt (key a) (key b)) x
              (sort_by (fun a b => gt (key a) (key b)) l)).
  rewrite IH. apply insert_desc_by.
Qed.

Lemma sort_asc_by (l : list drow) :
  sort_asc l = sort_by (fun a b => lt (key a) (key b)) l.
Proof.
  induction l as [| x l IH]; [reflexivity|].
  change (insert_asc x (sort_asc l)
          = insert_by (fun a b => lt (key a) (key b)) x
              (sort_by (fun a b => lt (key a) (key b)) l)).
  rewrite IH. apply insert_asc_by.
Qed.

(** ** Data frames whose changes are numbers, no two of them equal *)

Definition numbers (data : list drow) : Prop :=
  Forall (fun r => is_nan (key r) = false) data.

Definition distinct_changes (data : list drow) : Prop :=
  ForallOrdPairs (fun a b => feq (key a) (key b) = false) data.

Lemma dropna_numbers (data : list drow) : numbers data -> dropna data = data.
Proof.
  unfold numbers, dropna. induction 1 as [| r l Hr Hl IH]; simpl.
  - reflexivity.
  - rewrite Hr. simpl. rewrite IH. reflexivity.
Qed.

Lemma nan_rows_numbers (data : list drow) : numbers data -> nan_rows data = [].
Proof.
  unfold numbers, nan_rows. induction 1 as [| r l Hr Hl IH]; simpl.
  - reflexivity.
  - rewrite Hr. exact IH.
Qed.

Lemma comparable (data : list drow) :
  numbers data -> distinct_changes data ->
  ForallOrdPairs (fun a b => above a b \/ above b a) data.
Proof.
  intros Hn Hd. induction Hd as [| x l Hx Hl IH].
  - constructor.
  - apply List.Forall_cons_iff in Hn. destruct Hn as [Hnx Hnl].
    constructor; [|exact (IH Hnl)].
    apply List.Forall_forall. intros y Hy.
    apply gt_total.
    + exact Hnx.
    + exact (proj1 (List.Forall_forall _ _) Hnl y Hy).
    + exact (proj1 (List.Forall_forall _ _) Hx y Hy).
Qed.

Lemma ForallOrdPairs_impl {A} (R1 R2 : A -> A -> Prop) (l : list A) :
  (forall a b, R1 a b -> R2 a b) -> ForallOrdPairs R1 l -> ForallOrdPairs R2 l.
Proof.
  intros H. induction 1 as [| x l Hx Hl IH]; constructor.
  - apply List.Forall_forall. intros y Hy.
    apply H. exact (proj1 (List.Forall_forall _ _) Hx y Hy).
  - exact IH.
Qed.

Lemma sort_desc_sorted (data : list drow) :
  numbers data -> distinct_changes data -> StronglySorted above (sort_desc data).
Proof.
  intros Hn Hd. rewrite sort_desc_by.
  apply (sort_by_sorted (fun a b => gt (key a) (key b))).
  - intros a b c. apply gt_trans.
  - exact (comparable data Hn Hd).
Qed.

Lemma sort_asc_sorted (data : list drow) :
  numbers data -> distinct_changes data -> StronglySorted below (sort_asc data).
Proof.
  intros Hn Hd. rewrite sort_asc_by.
  apply (sort_by_sorted (fun a b => lt (key a) (key b))).
  - intros a b c. apply below_trans.
  - apply (ForallOrdPairs_impl (fun a b => above a b \/ above b a)).
    + intros a b [H | H]; [right | left]; exact H.
    + exact (comparable data Hn Hd).
Qed.

Lemma sort_desc_perm (data : list drow) : Permutation (sort_desc data) data.
Proof. rewrite sort_desc_by. apply sort_by_perm. Qed.

Lemma sort_asc_perm (data : list drow) : Permutation (sort_asc data) data.
Proof. rewrite sort_asc_by. apply sort_by_perm. Qed.

(** With no two changes equal, the ascending order is the descending
    order read backwards. *)
Lemma sort_asc_rev (data : list drow) :
  numbers data -> distinct_changes data -> sort_asc data = rev (sort_desc data).
Proof.
  intros Hn Hd.
  apply (sorted_unique below below_irrefl below_trans).
  - exact (sort_asc_sorted data Hn Hd).
  - exact (sorted_rev above _ (sort_desc_sorted data Hn Hd)).
  - apply Permutation_trans with data.
    + apply sort_asc_perm.
    + apply Permutation_trans with (sort_desc data).
      * apply Permutation_sym, sort_desc_perm.
      * apply Permutation_rev.
Qed.

(** ** Heads and tails of a list without repetition *)

Lemma NoDup_app_disjoint {A} (l1 l2 : list A) (a : A) :
  List.NoDup (l1 ++ l2) -> List.In a l1 -> List.In a l2 -> False.
Proof.
  induction l1 as [| x l1 IH]; simpl; intros H H1 H2.
  - exact H1.
  - apply List.NoDup_cons_iff in H. destruct H as [Hx H].
    destruct H1 as [-> | H1].
    + apply Hx. apply List.in_or_app. right. exact H2.
    + exact (IH H H1 H2).
Qed.

Lemma in_skipn_le {A} (i j : nat) (l : list A) (a : A) :
  i <= j -> List.In a (skipn j l) -> List.In a (skipn i l).
Proof.
  intros Hij Ha.
  replace j with ((j - i) + i) in Ha by lia.
  rewrite <- List.skipn_skipn in Ha.
  revert Ha. generalize (skipn i l) as m. generalize (j - i) as k.
  induction k as [| k IH]; intros m Ha.
  - exact Ha.
  - destruct m as [| x m]; [destruct Ha|].
    right. apply IH. exact Ha.
Qed.

Lemma head_tail_disjoint {A} (i j : nat) (l : list A) (a : A) :
  List.NoDup l -> i <= j ->
  List.In a (firstn i l) -> List.In a (skipn j l) -> False.
Proof.
  intros Hl Hij H1 H2.
  apply (NoDup_app_disjoint (firstn i l) (skipn i l) a).
  - rewrite List.firstn_skipn. exact Hl.
  - exact H1.
  - exact (in_skipn_le i j l a Hij H2).
Qed.

Lemma head_tail_cover {A} (i j : nat) (l : list A) (a : A) :
  j <= i -> List.In a l -> List.In a (firstn i l) \/ List.In a (skipn j l).
Proof.
  intros Hij Ha. rewrite <- (List.firstn_skipn i l) in Ha.
  apply List.in_app_or in Ha. destruct Ha as [Ha | Ha].
  - left. exact Ha.
  - right. exact (in_skipn_le j i l a Hij Ha).
Qed.

(** ** Top lines followed by bottom lines *)

Lemma top_and_bottom_of_sorted (ktop kbottom : nat) (data : list drow) :
  numbers data -> distinct_changes data ->
  top_and_bottom ktop kbottom data
  = (firstn ktop (sort_desc data)
     ++ rev (skipn (length data - kbottom) (sort_desc data)))%list.
Proof.
  intros Hn Hd. unfold top_and_bottom, concat, nlargest, nsmallest.
  rewrite (dropna_numbers data Hn), (nan_rows_numbers data Hn), !List.app_nil_r.
  rewrite (sort_asc_rev data Hn Hd), List.firstn_rev.
  rewrite (Permutation_length (sort_desc_perm data)). reflexivity.
Qed.

(** C10 as stated, for one [K] on both sides: every line exactly once when
    [2 * K] reaches the number of lines, no line on both sides otherwise. *)
Definition covers_once_or_disjoint (K : nat) (data : list drow) : Prop :=
  (length data <= 2 * K -> Permutation (top_and_bottom K K data) data) /\
  (2 * K < length data ->
   forall r, List.In r (nlargest K data) -> ~ List.In r (nsmallest K data)).

(** Three lines whose changes are +1, -1 and 0 points. *)
Definition up_down_flat : list drow :=
  map CreateFinalCharts.derive_row
    [Row "/up" 100 100 1 2; Row "/down" 100 100 2 1; Row "/flat" 100 100 1 1].

(** Three lines with the same change. *)
Definition all_flat : list drow :=
  map CreateFinalCharts.derive_row
    [Row "/a" 100 100 1 1; Row "/b" 100 100 2 2; Row "/c" 100 100 3 3].

(** C10, as stated, fails twice.  On three lines with different changes
    the top 2 followed by the bottom 2 are four lines: the middle line is
    there twice.  On three lines with the same change the top 1 and the
    bottom 1 are the same line, although [2 * 1 < 3]. *)
Lemma top_and_bottom_counterexample :
  ~ covers_once_or_disjoint 2 up_down_flat /\
  ~ covers_once_or_disjoint 1 all_flat.
Proof.
  split.
  - intros [H _].
    assert (Hlen : length up_down_flat <= 2 * 2) by (vm_compute; lia).
    apply H, Permutation_length in Hlen. vm_compute in Hlen. discriminate Hlen.
  - intros [_ H].
    assert (Hlen : 2 * 1 < length all_flat) by (vm_compute; lia).
    apply (H Hlen (CreateFinalCharts.derive_row (Row "/a" 100 100 1 1))).
    + vm_compute. left. reflexivity.
    + vm_compute. left. reflexivity.
Qed.

(** C10, amended: on a data frame whose changes are numbers, no two of
    them equal, the top [ktop] lines followed by the bottom [kbottom] lines
    (12 and 3 in create_final_charts.py, 15 and 5 in
    create_enhanced_charts.py) hold no line twice when [ktop + kbottom] is
    at most the number of lines, hold every line when it is at least the
    number of lines, and so hold every line exactly once when it is the
    number of lines. *)
Theorem top_and_bottom_cover (ktop kbottom : nat) (data : list drow) :
  numbers data -> distinct_changes data ->
  (ktop + kbottom <= length data -> List.NoDup (top_and_bottom ktop kbottom data)) /\
  (length data <= ktop + kbottom ->
   forall r, List.In r data -> List.In r (top_and_bottom ktop kbottom data)) /\
  (ktop + kbottom = length data -> Permutation (top_and_bottom ktop kbottom data) data) /\
  CreateFinalCharts.create_top_performers_chart data = top_and_bottom 12 3 data /\
  CreateEnhancedCharts.create_top_performers_chart data = top_and_bottom 15 5 data.
Proof.
  intros Hn Hd.
  rewrite (top_and_bottom_of_sorted ktop kbottom data Hn Hd).
  pose proof (sorted_NoDup above above_irrefl _ (sort_desc_sorted data Hn Hd)) as HND.
  pose proof (sort_desc_perm data) as HP.
  pose proof (Permutation_length HP) as HL.
  set (sorted := sort_desc data) in *.
  split; [|split; [|split; [|split]]].
  - intros Hk. apply List.NoDup_app.
    + apply (List.NoDup_app_remove_r _ (skipn ktop sorted)).
      rewrite List.firstn_skipn. exact HND.
    + apply List.NoDup_rev.
      apply (List.NoDup_app_remove_l (firstn (length data - kbottom) sorted)).
      rewrite List.firstn_skipn. exact HND.
    + intros a H1 H2. apply List.in_rev in H2.
      apply (head_tail_disjoint ktop (length data - kbottom) sorted a HND); auto.
      lia.
  - intros Hk r Hr. apply List.in_or_app.
    apply (Permutation_in _ (Permutation_sym HP)) in Hr.
    destruct (head_tail_cover ktop (length data - kbottom) sorted r) as [H | H].
    + lia.
    + exact Hr.
    + left. exact H.
    + right. apply List.in_rev in H. exact H.
  - intros Hk. replace (length data - kbottom) with ktop by lia.
    apply Permutation_trans with sorted; [|exact HP].
    rewrite <- (List.firstn_skipn ktop sorted) at 3.
    apply Permutation_app_head. apply Permutation_sym, Permutation_rev.
  - reflexivity.
  - reflexivity.
Qed.

Lemma up_down_flat_numbers : numbers up_down_flat.
Proof. repeat constructor. Qed.

Lemma up_down_flat_distinct : distinct_changes up_down_flat.
Proof. repeat constructor. Qed.

Lemma top_and_bottom_cover_witness :
  List.NoDup (top_and_bottom 2 1 up_down_flat) /\
  (forall r, List.In r up_down_flat -> List.In r (top_and_bottom 2 1 up_down_flat)) /\
  Permutation (top_and_bottom 2 1 up_down_flat) up_down_flat.
Proof.
  pose proof (top_and_bottom_cover 2 1 up_down_flat
                up_down_flat_numbers up_down_flat_distinct) as [H1 [H2 [H3 _]]].
  split; [|split].
  - apply H1. vm_compute. lia.
  - apply H2. vm_compute. lia.
  - apply H3. reflexivity.
Defined.

End Ranking.

(** * What a run leaves alone (claim C8) *)

Module Frame.
Import PyStr IO.

(** [m] changes no file but [out]. *)
Definition writes_only {A} (out : string) (m : io A) : Prop :=
  forall (w : world) (p : string), p <> out -> files (run m w) !! p = files w !! p.

Lemma writes_only_ret {A} (out : string) (a : A) : writes_only out (ret a).
Proof. intros w p _. reflexivity. Qed.

Lemma writes_only_raise {A} (out : string) (e : exn) : writes_only out (@raise A e).
Proof. intros w p _. reflexivity. Qed.

Lemma writes_only_print (out line : string) : writes_only out (print line).
Proof. intros w p _. reflexivity. Qed.

Lemma writes_only_read_file (out path : string) : writes_only out (read_file path).
Proof.
  intros w p _. unfold run, read_file. destruct (files w !! path); reflexivity.
Qed.

Lemma writes_only_write_file (out content : string) :
  writes_only out (write_file out content).
Proof.
  intros w p Hp. unfold run, write_file. simpl.
  apply lookup_insert_ne. congruence.
Qed.

Lemma writes_only_lift {A} (out : string) (e : exn) (o : option A) :
  writes_only out (lift e o).
Proof. destruct o; [apply writes_only_ret | apply writes_only_raise]. Qed.

Lemma writes_only_bind {A B} (out : string) (m : io A) (k : A -> io B) :
  writes_only out m -> (forall a, writes_only out (k a)) -> writes_only out (bind m k).
Proof.
  intros Hm Hk w p Hp. specialize (Hm w p Hp).
  unfold run, bind in *. destruct (m w) as [w' [a | e]]; simpl in *.
  - rewrite <- Hm. exact (Hk a w' p Hp).
  - exact Hm.
Qed.

Lemma writes_only_try_except (out : string) (body : io unit) :
  writes_only out body -> writes_only out (try_except body).
Proof.
  intros Hb w p Hp. specialize (Hb w p Hp).
  unfold run, try_except in *. destruct (body w) as [w' [[] | e]]; simpl in *.
  - exact Hb.
  - exact Hb.
Qed.

Create HintDb frame.
#[export] Hint Resolve writes_only_ret writes_only_raise writes_only_print
  writes_only_read_file writes_only_write_file writes_only_lift : frame.

(** One step through a sequence of actions. *)
Ltac frame_step :=
  match goal with
  | |- writes_only _ (bind _ _) => apply writes_only_bind; [| intros ?]
  | |- writes_only _ (let '(_, _) := ?x in _) => destruct x
  | |- writes_only _ (if ?b then _ else _) => destruct b
  | |- writes_only _ _ => solve [auto with frame]
  end.

Lemma fill_placeholders_writes_only (out : string) (charts : list string) :
  forall i html_content,
    writes_only out (CreateFinalCharts.fill_placeholders i charts html_content).
Proof.
  induction charts as [| c charts IH]; intros i html_content; simpl.
  - apply writes_only_ret.
  - destruct (contains (CreateFinalCharts.placeholder i) html_content);
      (apply writes_only_bind; [apply writes_only_print | intros _; apply IH]).
Qed.

#[export] Hint Resolve fill_placeholders_writes_only : frame.

Lemma create_charts_writes_only (ext : externals) :
  writes_only CreateCharts.output_path (CreateCharts.main ext).
Proof.
  unfold CreateCharts.main, CreateCharts.update_html_with_charts,
    CreateCharts.load_data.
  repeat frame_step.
Qed.

Lemma create_final_charts_writes_only (ext : externals) :
  writes_only CreateFinalCharts.output_path (CreateFinalCharts.main ext).
Proof.
  apply writes_only_try_except.
  unfold CreateFinalCharts.update_html_with_charts,
    CreateFinalCharts.load_and_process_data, CreateFinalCharts.replace_images,
    CreateFinalCharts.find_and_replace_images.
  repeat frame_step.
Qed.

Lemma create_enhanced_charts_writes_only (ext : externals) :
  writes_only CreateEnhancedCharts.output_path (CreateEnhancedCharts.main ext).
Proof.
  apply writes_only_try_except.
  unfold CreateEnhancedCharts.update_html_with_enhanced_charts,
    CreateEnhancedCharts.load_and_process_data.
  repeat frame_step.
Qed.


(** A run of [main] on [w] changes no file but [out], which is neither
    the report nor the CSV file. *)
Definition leaves_inputs (main : io unit) (out : string) (w : world) : Prop :=
  (forall p, p <> out -> files (run main w) !! p = files w !! p) /\
  out <> report_path /\
  out <> csv_path /\
  files (run main w) !! report_path = files w !! report_path /\
  files (run main w) !! csv_path = files w !! csv_path.

Lemma writes_only_leaves_inputs (main : io unit) (out : string) (w : world) :
  writes_only out main -> out <> report_path -> out <> csv_path ->
  leaves_inputs main out w.
Proof.
  intros Hw H1 H2. unfold leaves_inputs. repeat split; auto.
Qed.

(** C8: whatever the file system and whatever the outcome of the run, each
    of the three scripts leaves every file but its output file as it was,
    the report and the CSV file among them, because the output path is
    neither the path of the report nor the path of the CSV file. *)
Theorem input_files_untouched (ext : externals) (w : world) :
  leaves_inputs (CreateCharts.main ext) CreateCharts.output_path w /\
  leaves_inputs (CreateFinalCharts.main ext) CreateFinalCharts.output_path w /\
  leaves_inputs (CreateEnhancedCharts.main ext) CreateEnhancedCharts.output_path w.
Proof.
  split; [|split]; apply writes_only_leaves_inputs; try discriminate.
  - apply create_charts_writes_only.
  - apply create_final_charts_writes_only.
  - apply create_enhanced_charts_writes_only.
Qed.

End Frame.

(** * Patching the report *)

Module Patching.
Import PyStr Re IO Metrics Samples.

(** ** Replacing a text that is not there *)

Lemma find_none_cons (old : string) (a : ascii) (s : string) :
  find old (String a s) = None ->
  starts_with old (String a s) = false /\ find old s = None.
Proof.
  cbn [find]. destruct (starts_with old (String a s)); [discriminate|].
  destruct (find old s); [discriminate|]. auto.
Qed.

Lemma replace_from_absent (old new s : string) :
  find old s = None -> replace_from old new 0 s = s.
Proof.
  induction s as [| a s IH]; intros H.
  - reflexivity.
  - apply find_none_cons in H. destruct H as [H1 H2].
    cbn [replace_from]. rewrite H1, (IH H2). reflexivity.
Qed.

Lemma contains_false_find (old s : string) :
  contains old s = false -> find old s = None.
Proof. unfold contains. destruct (find old s); [discriminate | reflexivity]. Qed.

(** [s.replace(old, new)] is [s] when [old] is not in [s]. *)
Lemma replace_all_absent (old new s : string) :
  contains old s = false -> replace_all old new s = s.
Proof. intros H. apply replace_from_absent, contains_false_find, H. Qed.

(** [s.replace(old, new, 1)] is [s] when [old] is not in [s]. *)
Lemma replace_first_absent (old new s : string) :
  contains old s = false -> replace_first old new s = s.
Proof.
  intros H. unfold replace_first. rewrite (contains_false_find _ _ H). reflexivity.
Qed.


(** The file a run leaves at [out], or the empty text. *)
Definition written (main : io unit) (out : string) (w : world) : string :=
  match files (run main w) !! out with
  | Some text => text
  | None => ""
  end.

(** ** Sample runs *)

Definition one_page : list row := [Row "/a" 100 120 5 9].

(** A report without a table, and a report without a closing body tag. *)
Definition no_table : string := "<html><head></head><body><p>x</p></body></html>".
Definition no_body : string := "<html><head></head><p>x</p>".

(** How every chart container starts. *)
Definition container_start : string := "<div class=" +:+ q +:+ "chart-container".

Definition final_output (report : string) : string :=
  written (CreateFinalCharts.main (sample_ext one_page))
    CreateFinalCharts.output_path (sample_world report).

Definition enhanced_output (report : string) : string :=
  written (CreateEnhancedCharts.main (sample_ext one_page))
    CreateEnhancedCharts.output_path (sample_world report).

Definition charts_output (report : string) : string :=
  written (CreateCharts.main (sample_ext one_page))
    CreateCharts.output_path (sample_world report).

(** ** A missing anchor (claim C9) *)

(** C9, as stated, fails: on a report without [</table>] create_charts.py
    completes, writes its output, and the summary chart is nowhere in it;
    on a report without [</body>] create_final_charts.py and
    create_enhanced_charts.py write an output without the summary block. *)
Lemma missing_anchor_counterexample :
  contains "</table>" no_table = false /\
  outcome (CreateCharts.main (sample_ext one_page)) (sample_world no_table) = inl tt /\
  contains "<div id=third>" (charts_output no_table) = false /\
  contains "Performance Distribution" (charts_output no_table) = false /\
  contains "</body>" no_body = false /\
  contains "<div class=summary>" (final_output no_body) = false /\
  contains "<div class=summary>" (enhanced_output no_body) = false.
Proof. vm_compute. repeat split. Qed.

(** C9, amended: an insertion whose anchor is missing from the text is
    skipped and leaves the text as it is.  create_charts.py puts the
    summary chart right after the first [</table>] when there is one and
    nowhere otherwise; create_final_charts.py and create_enhanced_charts.py
    put the summary block before [</body>] only where the text, after the
    style block went in, has a [</body>]. *)
Theorem missing_anchor_skips_insertion (summary html_content : string) :
  (contains "</table>" html_content = false ->
   CreateCharts.add_summary_chart summary html_content = html_content) /\
  (forall i, find "</table>" html_content = Some i ->
   CreateCharts.add_summary_chart summary html_content
   = take (i + 8) html_content +:+ CreateCharts.chart_section summary
       +:+ drop (i + 8) html_content) /\
  (contains "</body>"
     (replace_all "</head>" CreateFinalCharts.enhanced_css html_content) = false ->
   CreateFinalCharts.add_css_and_summary summary html_content
   = replace_all "</head>" CreateFinalCharts.enhanced_css html_content) /\
  (contains "</body>"
     (replace_all "</head>" CreateEnhancedCharts.enhanced_css html_content) = false ->
   CreateEnhancedCharts.add_css_and_summary summary html_content
   = replace_all "</head>" CreateEnhancedCharts.enhanced_css html_content).
Proof.
  split; [|split; [|split]].
  - intros H. unfold CreateCharts.add_summary_chart, CreateCharts.table_end.
    rewrite H. reflexivity.
  - intros i H. unfold CreateCharts.add_summary_chart, CreateCharts.table_end, contains.
    rewrite H. reflexivity.
  - intros H. unfold CreateFinalCharts.add_css_and_summary.
    apply replace_all_absent. exact H.
  - intros H. unfold CreateEnhancedCharts.add_css_and_summary.
    apply replace_all_absent. exact H.
Qed.

Lemma missing_anchor_witness :
  CreateCharts.add_summary_chart "S" no_table = no_table /\
  CreateCharts.add_summary_chart "S" "<table></table>"
  = "<table></table>" +:+ CreateCharts.chart_section "S" /\
  CreateFinalCharts.add_css_and_summary "S" no_body
  = replace_all "</head>" CreateFinalCharts.enhanced_css no_body /\
  CreateEnhancedCharts.add_css_and_summary "S" no_body
  = replace_all "</head>" CreateEnhancedCharts.enhanced_css no_body.
Proof.
  split; [|split; [|split]].
  - apply (proj1 (missing_anchor_skips_insertion "S" no_table)). reflexivity.
  - apply (proj1 (proj2 (missing_anchor_skips_insertion "S" "<table></table>")) 7).
    reflexivity.
  - apply (proj1 (proj2 (proj2 (missing_anchor_skips_insertion "S" no_body)))).
    reflexivity.
  - apply (proj2 (proj2 (proj2 (missing_anchor_skips_insertion "S" no_body)))).
    reflexivity.
Defined.

(** ** Fewer images than charts (claim C5) *)










(** ** More images than charts (claim C1) *)

Definition three_images : string := report ["AAAA"; "BBBB"; "CCCC"].

(** On a report with exactly three images the three scripts agree with the
    contract: no image is left, and the charts stand in the order of the
    images they replace. *)
Example three_images_patched :
  findall CreateFinalCharts.base64_pattern three_images
    = [img "AAAA"; img "BBBB"; img "CCCC"] /\
  count "<img" (final_output three_images) = 0 /\
  count "__CHART_PLACEHOLDER_" (final_output three_images) = 0 /\
  count container_start (final_output three_images) = 3 /\
  count "<div id=first>" (final_output three_images) = 1 /\
  count "<div id=second>" (final_output three_images) = 1 /\
  count "<div id=third>" (final_output three_images) = 1 /\
  (exists i j k,
      find "<div id=first>" (final_output three_images) = Some i /\
      find "<div id=second>" (final_output three_images) = Some j /\
      find "<div id=third>" (final_output three_images) = Some k /\
      i < j < k) /\
  count "<img" (enhanced_output three_images) = 0 /\
  count container_start (enhanced_output three_images) = 3.
Proof.
  vm_compute. repeat split.
  exists 1039, 2108, 3227. repeat split; lia.
Qed.


(** ** Charts inserted verbatim (claim C7) *)

(** The extraction of create_final_charts.py takes a chart out of the page
    the renderer wraps around it. *)
Example extract_chart_div_page :
  CreateFinalCharts.extract_chart_div (page_of "<div id=first></div>")
    = "<div id=first></div>" /\
  CreateCharts.overall_chart_content (page_of "<div id=first></div>")
    = Some "<div id=first></div>" /\
  CreateEnhancedCharts.executive_inner (page_of "<div id=first></div>")
    = "<div id=first></div>".
Proof. vm_compute. repeat split. Qed.


End Patching.

(** * More of the metrics: ranges, accuracy and categories *)

From Stdlib Require Import Lqa.

Module MetricsMore.
Import Float Metrics MetricsFacts.

(** ** Column comparisons [<=] and [>=] *)

Definition le (a b : fval) : bool := lt a b || feq a b.
Definition ge (a b : fval) : bool := gt a b || feq a b.

Definition half : fval := Fin (1 # 2).
Definition minus_half : fval := Fin (- (1 # 2)).

(** ** create_enhanced_charts.py, lines 264-268: the five categories *)

Definition big_wins (data : list drow) : nat :=
  length (List.filter (fun r => gt (conversion_rate_change r) half) data).

Definition small_wins (data : list drow) : nat :=
  length (List.filter
            (fun r => gt (conversion_rate_change r) zero
                      && le (conversion_rate_change r) half) data).

Definition no_change (data : list drow) : nat :=
  length (List.filter (fun r => feq (conversion_rate_change r) zero) data).

Definition small_losses (data : list drow) : nat :=
  length (List.filter
            (fun r => lt (conversion_rate_change r) zero
                      && ge (conversion_rate_change r) minus_half) data).

Definition big_losses (data : list drow) : nat :=
  length (List.filter (fun r => lt (conversion_rate_change r) minus_half) data).

(** ** create_final_charts.py, line 380: [wins / len(data) * 100]

    A division of Python integers: it raises on an empty data frame. *)
Definition success_rate (data : list drow) : option Q :=
  match length data with
  | O => None
  | S _ =>
      Some (inject_Z (Z.of_nat (wins data)) / inject_Z (Z.of_nat (length data)) * 100)%Q
  end.

(** ** Rounding keeps a value on its side of a whole number *)

Lemma inject_Z_half_le (a b : Z) :
  (inject_Z a <= inject_Z b + (1 # 2))%Q -> (a <= b)%Z.
Proof.
  unfold Qle, Qplus, inject_Z. cbn. lia.
Qed.

Lemma inject_Z_half_ge (a b : Z) :
  (inject_Z b - (1 # 2) <= inject_Z a)%Q -> (b <= a)%Z.
Proof.
  unfold Qle, Qminus, Qplus, Qopp, inject_Z. cbn. lia.
Qed.

Lemma pow10_inject (P : nat) (k : Z) :
  (inject_Z k * pow10 P == inject_Z (k * 10 ^ Z.of_nat P))%Q.
Proof. unfold pow10. rewrite inject_Z_mult. reflexivity. Qed.

Lemma round_dec_le_int (P : nat) (x : Q) (k : Z) :
  (x <= inject_Z k)%Q -> (round_dec P x <= inject_Z k)%Q.
Proof.
  intros Hx.
  pose proof (pow10_pos P) as Hp.
  pose proof (rint_nearest (x * pow10 P)) as [H1 _].
  pose proof (round_dec_units P x) as Hu.
  assert (Hz : (rint (x * pow10 P) <= k * 10 ^ Z.of_nat P)%Z).
  { apply inject_Z_half_le. rewrite <- pow10_inject.
    assert (Hm : (x * pow10 P <= inject_Z k * pow10 P)%Q)
      by (apply Qmult_le_compat_r; [exact Hx | apply Qlt_le_weak; exact Hp]).
    lra. }
  apply (Qmult_le_r _ _ (pow10 P) Hp).
  rewrite Hu, pow10_inject. rewrite <- Zle_Qle. exact Hz.
Qed.

Lemma round_dec_ge_int (P : nat) (x : Q) (k : Z) :
  (inject_Z k <= x)%Q -> (inject_Z k <= round_dec P x)%Q.
Proof.
  intros Hx.
  pose proof (pow10_pos P) as Hp.
  pose proof (rint_nearest (x * pow10 P)) as [_ H2].
  pose proof (round_dec_units P x) as Hu.
  assert (Hz : (k * 10 ^ Z.of_nat P <= rint (x * pow10 P))%Z).
  { apply inject_Z_half_ge. rewrite <- pow10_inject.
    assert (Hm : (inject_Z k * pow10 P <= x * pow10 P)%Q)
      by (apply Qmult_le_compat_r; [exact Hx | apply Qlt_le_weak; exact Hp]).
    lra. }
  apply (Qmult_le_r _ _ (pow10 P) Hp).
  rewrite Hu, pow10_inject. rewrite <- Zle_Qle. exact Hz.
Qed.

(** ** A rate on a positive number of sessions *)

(** The rate column of one line, as every loader computes it. *)
Definition rate (P : nat) (conversions sessions : Z) : fval :=
  round P (mul (div_int conversions sessions) hundred).

Definition exact_rate (conversions sessions : Z) : Q :=
  inject_Z conversions / inject_Z sessions * 100.

Lemma rate_finite (P : nat) (conversions sessions : Z) :
  (0 < sessions)%Z ->
  rate P conversions sessions = Fin (round_dec P (exact_rate conversions sessions)).
Proof.
  intros Hs. unfold rate, div_int.
  destruct (sessions =? 0)%Z eqn:E; [apply Z.eqb_eq in E; lia|].
  reflexivity.
Qed.

Lemma exact_rate_range (conversions sessions : Z) :
  (0 < sessions)%Z -> (0 <= conversions <= sessions)%Z ->
  (inject_Z 0 <= exact_rate conversions sessions)%Q /\
  (exact_rate conversions sessions <= inject_Z 100)%Q.
Proof.
  intros Hs [Hc1 Hc2]. unfold exact_rate.
  assert (Hsq : (0 < inject_Z sessions)%Q)
    by (change 0%Q with (inject_Z 0); rewrite <- Zlt_Qlt; exact Hs).
  assert (Hcq1 : (0 <= inject_Z conversions)%Q)
    by (change 0%Q with (inject_Z 0); rewrite <- Zle_Qle; exact Hc1).
  assert (Hcq2 : (inject_Z conversions <= inject_Z sessions)%Q)
    by (rewrite <- Zle_Qle; exact Hc2).
  assert (Hq1 : (0 <= inject_Z conversions / inject_Z sessions)%Q).
  { apply Qle_shift_div_l; [exact Hsq|]. lra. }
  assert (Hq2 : (inject_Z conversions / inject_Z sessions <= 1)%Q).
  { apply Qle_shift_div_r; [exact Hsq|]. lra. }
  change (inject_Z 0) with 0%Q. change (inject_Z 100) with 100%Q.
  split; lra.
Qed.

(** On a line whose session counts are positive and whose conversions do
    not exceed its sessions, both rates are numbers between 0 and 100 and
    the change is a number between -100 and 100, whatever the precision. *)
Theorem rates_within_range (P : nat) (r : row) :
  (0 < sessions_pre r)%Z -> (0 < sessions_post r)%Z ->
  (0 <= conversions_pre r <= sessions_pre r)%Z ->
  (0 <= conversions_post r <= sessions_post r)%Z ->
  exists pre post change,
    conversion_rate_pre (derive P r) = Fin pre /\
    conversion_rate_post (derive P r) = Fin post /\
    conversion_rate_change (derive P r) = Fin change /\
    (0 <= pre <= 100)%Q /\ (0 <= post <= 100)%Q /\ (-100 <= change <= 100)%Q.
Proof.
  intros Hs1 Hs2 Hc1 Hc2.
  pose proof (rate_finite P (conversions_pre r) (sessions_pre r) Hs1) as E1.
  pose proof (rate_finite P (conversions_post r) (sessions_post r) Hs2) as E2.
  pose proof (exact_rate_range _ _ Hs1 Hc1) as [A1 A2].
  pose proof (exact_rate_range _ _ Hs2 Hc2) as [B1 B2].
  set (pre := round_dec P (exact_rate (conversions_pre r) (sessions_pre r))) in *.
  set (post := round_dec P (exact_rate (conversions_post r) (sessions_post r))) in *.
  assert (Hpre : (inject_Z 0 <= pre)%Q /\ (pre <= inject_Z 100)%Q)
    by (split; [apply round_dec_ge_int | apply round_dec_le_int]; assumption).
  assert (Hpost : (inject_Z 0 <= post)%Q /\ (post <= inject_Z 100)%Q)
    by (split; [apply round_dec_ge_int | apply round_dec_le_int]; assumption).
  change (inject_Z 0) with 0%Q in *. change (inject_Z 100) with 100%Q in *.
  exists pre, post, (round_dec P (post - pre)).
  unfold rate in E1, E2. cbn [derive conversion_rate_pre conversion_rate_post
                              conversion_rate_change].
  rewrite E1, E2. cbn [sub round].
  repeat split; try tauto.
  - change (-100)%Q with (inject_Z (-100)). apply round_dec_ge_int.
    change (inject_Z (-100)) with (-100)%Q. lra.
  - change 100%Q with (inject_Z 100). apply round_dec_le_int.
    change (inject_Z 100) with 100%Q. lra.
Qed.

Lemma rates_within_range_witness :
  exists pre post change,
    conversion_rate_pre (derive 4 (Row "/a" 100 120 5 9)) = Fin pre /\
    conversion_rate_post (derive 4 (Row "/a" 100 120 5 9)) = Fin post /\
    conversion_rate_change (derive 4 (Row "/a" 100 120 5 9)) = Fin change /\
    (0 <= pre <= 100)%Q /\ (0 <= post <= 100)%Q /\ (-100 <= change <= 100)%Q.
Proof.
  apply (rates_within_range 4 (Row "/a" 100 120 5 9)); simpl; lia.
Defined.

(** ** How far a rounded rate is from the exact rate *)





(** ** Lines with sessions in both periods are all classified *)

Lemma derive_change_number (P : nat) (r : row) :
  (0 < sessions_pre r)%Z -> (0 < sessions_post r)%Z ->
  is_nan (conversion_rate_change (derive P r)) = false.
Proof.
  intros H1 H2.
  pose proof (rate_finite P (conversions_pre r) (sessions_pre r) H1) as E1.
  pose proof (rate_finite P (conversions_post r) (sessions_post r) H2) as E2.
  unfold rate in E1, E2.
  cbn [derive conversion_rate_change]. rewrite E1, E2. reflexivity.
Qed.

(** When every line of the CSV file has sessions before and after, the
    three counts of the pie chart add up to the number of lines, in
    create_charts.py and in create_final_charts.py. *)
Theorem positive_sessions_all_classified (rows : list row) :
  Forall (fun r => (0 < sessions_pre r)%Z /\ (0 < sessions_post r)%Z) rows ->
  CreateCharts.total_pages_shown (map CreateCharts.derive_row rows) = length rows /\
  CreateFinalCharts.total_pages_shown (map CreateFinalCharts.derive_row rows)
    = length rows.
Proof.
  intros H.
  assert (Hgen : forall P, (wins (map (derive P) rows) + losses (map (derive P) rows)
                            + ties (map (derive P) rows) = length rows)%nat).
  { intros P. rewrite classes_cover_numbers; [apply length_map|].
    apply List.Forall_forall. intros d Hd. apply List.in_map_iff in Hd.
    destruct Hd as [r [<- Hr]].
    destruct (proj1 (List.Forall_forall _ _) H r Hr) as [H1 H2].
    exact (derive_change_number P r H1 H2). }
  split.
  - exact (Hgen 2%nat).
  - exact (Hgen 4%nat).
Qed.

Lemma positive_sessions_all_classified_witness :
  CreateCharts.total_pages_shown
    (map CreateCharts.derive_row [Row "/a" 100 120 5 9; Row "/b" 10 10 1 1]) = 2 /\
  CreateFinalCharts.total_pages_shown
    (map CreateFinalCharts.derive_row [Row "/a" 100 120 5 9; Row "/b" 10 10 1 1]) = 2.
Proof.
  apply (positive_sessions_all_classified [Row "/a" 100 120 5 9; Row "/b" 10 10 1 1]).
  repeat constructor.
Defined.

(** ** The five categories against the three classes *)

Lemma Qlt_bool_false_iff (x y : Q) : Qlt_bool x y = false <-> (y <= x)%Q.
Proof.
  split.
  - intros H. apply Qnot_lt_le. intros Hlt.
    apply Qlt_bool_iff in Hlt. congruence.
  - intros H. destruct (Qlt_bool x y) eqn:E; [|reflexivity].
    apply Qlt_bool_iff in E. exfalso. exact (Qlt_not_le _ _ E H).
Qed.

Lemma Qeq_bool_false_iff (x y : Q) : Qeq_bool x y = false <-> ~ (x == y)%Q.
Proof.
  split.
  - intros H E. apply Qeq_bool_iff in E. congruence.
  - intros H. destruct (Qeq_bool x y) eqn:E; [|reflexivity].
    apply Qeq_bool_iff in E. contradiction.
Qed.

(** Splits on the boolean comparisons of rationals in the goal and turns
    the cases into inequalities. *)
Ltac split_comparisons :=
  repeat match goal with
         | |- context [Qlt_bool ?a ?b] => destruct (Qlt_bool a b) eqn:?
         | |- context [Qeq_bool ?a ?b] => destruct (Qeq_bool a b) eqn:?
         end;
  repeat match goal with
         | H : Qlt_bool _ _ = true |- _ => apply Qlt_bool_iff in H
         | H : Qlt_bool _ _ = false |- _ => apply Qlt_bool_false_iff in H
         | H : Qeq_bool _ _ = true |- _ => apply Qeq_bool_iff in H
         | H : Qeq_bool _ _ = false |- _ => apply Qeq_bool_false_iff in H
         end.

(** A win is big or small and not both. *)
Lemma win_split (v : fval) :
  (Nat.b2n (gt v half) + Nat.b2n (gt v zero && le v half) = Nat.b2n (gt v zero))%nat.
Proof.
  destruct v as [x | | |]; try reflexivity.
  unfold le, ge, lt, gt, feq, half, zero. split_comparisons; simpl; try reflexivity;
    exfalso; lra.
Qed.

(** A loss is big or small and not both. *)
Lemma loss_split (v : fval) :
  (Nat.b2n (lt v zero && ge v minus_half) + Nat.b2n (lt v minus_half)
   = Nat.b2n (lt v zero))%nat.
Proof.
  destruct v as [x | | |]; try reflexivity.
  unfold le, ge, lt, gt, feq, minus_half, zero. split_comparisons; simpl;
    try reflexivity; exfalso; lra.
Qed.

(** The five categories of create_enhanced_charts.py split the three
    classes: big and small wins are the wins, small and big losses the
    losses, [no_change] the ties; so the five bars, with the lines whose
    change is [nan], add up to the number of lines. *)
Theorem categories_refine_classes (data : list drow) :
  (big_wins data + small_wins data = wins data)%nat /\
  (small_losses data + big_losses data = losses data)%nat /\
  no_change data = ties data /\
  (big_wins data + small_wins data + no_change data + small_losses data
   + big_losses data + length (nan_rows data) = length data)%nat.
Proof.
  assert (Hw : (big_wins data + small_wins data = wins data)%nat).
  { unfold big_wins, small_wins, wins. induction data as [| r l IH]; [reflexivity|].
    rewrite !length_filter_cons. cbv beta.
    pose proof (win_split (conversion_rate_change r)). lia. }
  assert (Hl : (small_losses data + big_losses data = losses data)%nat).
  { clear Hw. unfold big_losses, small_losses, losses.
    induction data as [| r l IH]; [reflexivity|].
    rewrite !length_filter_cons. cbv beta.
    pose proof (loss_split (conversion_rate_change r)). lia. }
  split; [exact Hw|]. split; [exact Hl|]. split; [reflexivity|].
  pose proof (classes_miss_nan data) as Hc.
  unfold no_change at 1. fold (ties data). lia.
Qed.

(** What the pie charts of create_charts.py and create_final_charts.py
    show as the total of the pages is the number of lines less the lines
    whose change is [nan]. *)
Theorem total_pages_shown_misses_nan (data : list drow) :
  (CreateCharts.total_pages_shown data + length (nan_rows data) = length data)%nat /\
  (CreateFinalCharts.total_pages_shown data + length (nan_rows data)
   = length data)%nat.
Proof.
  split; exact (classes_miss_nan data).
Qed.

(** ** The success rate *)

Lemma wins_le_length (data : list drow) : wins data <= length data.
Proof.
  unfold wins. induction data as [| r l IH]; [simpl; lia|].
  rewrite length_filter_cons. cbn [length]. destruct (gt _ _); simpl; lia.
Qed.

(** The success rate of create_final_charts.py is a percentage between 0
    and 100 on a data frame with at least one line, and a division by
    zero on an empty one. *)
Theorem success_rate_range (data : list drow) :
  (data = [] -> success_rate data = None) /\
  (data <> [] -> exists x, success_rate data = Some x /\ (0 <= x <= 100)%Q).
Proof.
  split.
  - intros ->. reflexivity.
  - intros Hne. unfold success_rate.
    pose proof (wins_le_length data) as Hw.
    destruct data as [| r l]; [congruence|].
    set (n := length (r :: l)) in *.
    assert (Hn : 0 < n) by (unfold n; simpl; lia).
    destruct n as [| n'] eqn:En; [lia|].
    eexists. split; [reflexivity|].
    assert (Hnq : (0 < inject_Z (Z.of_nat (S n')))%Q)
      by (change 0%Q with (inject_Z 0); rewrite <- Zlt_Qlt; lia).
    assert (Hwq1 : (0 <= inject_Z (Z.of_nat (wins (r :: l))))%Q)
      by (change 0%Q with (inject_Z 0); rewrite <- Zle_Qle; lia).
    assert (Hwq2 : (inject_Z (Z.of_nat (wins (r :: l))) <= inject_Z (Z.of_nat (S n')))%Q)
      by (rewrite <- Zle_Qle; lia).
    assert (Hq1 : (0 <= inject_Z (Z.of_nat (wins (r :: l))) / inject_Z (Z.of_nat (S n')))%Q).
    { apply Qle_shift_div_l; [exact Hnq|]. lra. }
    assert (Hq2 : (inject_Z (Z.of_nat (wins (r :: l))) / inject_Z (Z.of_nat (S n')) <= 1)%Q).
    { apply Qle_shift_div_r; [exact Hnq|]. lra. }
    split; lra.
Qed.

Lemma success_rate_range_witness :
  success_rate [] = None /\
  exists x, success_rate (map CreateFinalCharts.derive_row [Row "/a" 100 120 5 9])
            = Some x /\ (0 <= x <= 100)%Q.
Proof.
  split.
  - apply (proj1 (success_rate_range [])). reflexivity.
  - apply (proj2 (success_rate_range
                    (map CreateFinalCharts.derive_row [Row "/a" 100 120 5 9]))).
    discriminate.
Defined.

End MetricsMore.

(** * More of the ranking: what [nlargest] and [nsmallest] return *)

Module RankingMore.
Import Float Metrics Ranking.

(** ** Insertion when changes may be equal *)

Section WeakOrder.
Variable before : drow -> drow -> bool.
Variable ok : drow -> Prop.
Hypothesis before_asym : forall a b, before a b = true -> before b a = false.
Hypothesis before_negtrans :
  forall a b c, ok a -> ok b -> ok c ->
                before a c = true -> before a b = true \/ before b c = true.

(** [a] may stand before [b]: [b] does not go before [a]. *)
Let W (a b : drow) : Prop := before b a = false.

Lemma insert_by_weakly_sorted (x : drow) (l : list drow) :
  ok x -> Forall ok l -> StronglySorted W l ->
  StronglySorted W (insert_by before x l).
Proof.
  intros Hx. induction l as [| y l IH]; intros Hl S; simpl.
  - constructor; constructor.
  - apply List.Forall_cons_iff in Hl. destruct Hl as [Hy Hl].
    pose proof (StronglySorted_inv S) as [Sl Hyl].
    destruct (before y x) eqn:E.
    + constructor; [exact (IH Hl Sl)|].
      apply List.Forall_forall. intros z Hz.
      apply (Permutation_in _ (insert_by_perm before x l)) in Hz.
      destruct Hz as [<- | Hz].
      * exact (before_asym y x E).
      * exact (proj1 (List.Forall_forall _ _) Hyl z Hz).
    + constructor; [exact S|].
      apply List.Forall_forall. intros z [<- | Hz]; [exact E|].
      unfold W. destruct (before z x) eqn:Ez; [|reflexivity].
      pose proof (proj1 (List.Forall_forall _ _) Hyl z Hz) as Hzy.
      pose proof (proj1 (List.Forall_forall _ _) Hl z Hz) as Hokz.
      destruct (before_negtrans z y x Hokz Hy Hx Ez) as [H | H].
      * unfold W in Hzy. congruence.
      * congruence.
Qed.

Lemma sort_by_weakly_sorted (l : list drow) :
  Forall ok l -> StronglySorted W (sort_by before l).
Proof.
  induction 1 as [| x l Hx Hl IH]; simpl.
  - constructor.
  - apply insert_by_weakly_sorted; [exact Hx | | exact IH].
    apply List.Forall_forall. intros y Hy.
    apply (Permutation_in _ (sort_by_perm before l)) in Hy.
    exact (proj1 (List.Forall_forall _ _) Hl y Hy).
Qed.
End WeakOrder.

(** ** The order on numbers *)

Definition is_number (r : drow) : Prop := is_nan (key r) = false.

Lemma gt_asym (a b : fval) : gt a b = true -> gt b a = false.
Proof.
  intros H. destruct (gt b a) eqn:E; [|reflexivity].
  pose proof (gt_trans _ _ _ H E) as Haa. rewrite gt_irrefl in Haa. discriminate.
Qed.

Lemma gt_negtrans (a b c : fval) :
  is_nan a = false -> is_nan b = false -> is_nan c = false ->
  gt a c = true -> gt a b = true \/ gt b c = true.
Proof.
  destruct a as [x | | |], b as [y | | |], c as [z | | |]; simpl;
    intros Ha Hb Hc H; try discriminate; auto.
  apply MetricsFacts.Qlt_bool_iff in H.
  destruct (Qlt_le_dec y x) as [Hyx | Hxy].
  - left. apply MetricsFacts.Qlt_bool_iff. exact Hyx.
  - right. apply MetricsFacts.Qlt_bool_iff. exact (Qlt_le_trans _ _ _ H Hxy).
Qed.

Lemma dropna_all_numbers (data : list drow) : Forall is_number (dropna data).
Proof.
  apply List.Forall_forall. intros r Hr. unfold dropna in Hr.
  apply List.filter_In in Hr. destruct Hr as [_ Hr].
  unfold is_number. destruct (is_nan (key r)); [discriminate | reflexivity].
Qed.

Lemma nan_rows_all_nan (data : list drow) :
  Forall (fun r => key r = NaN) (nan_rows data).
Proof.
  apply List.Forall_forall. intros r Hr. unfold nan_rows in Hr.
  apply List.filter_In in Hr. destruct Hr as [_ Hr].
  destruct (key r); try discriminate. reflexivity.
Qed.

(** The lines with a number and the lines with [nan] are all the lines. *)
Lemma dropna_nan_rows_perm (data : list drow) :
  Permutation (dropna data ++ nan_rows data) data.
Proof.
  unfold dropna, nan_rows. induction data as [| r l IH]; simpl.
  - constructor.
  - destruct (is_nan (key r)); simpl.
    + apply Permutation_sym, Permutation_cons_app, Permutation_sym, IH.
    + apply perm_skip, IH.
Qed.

(** ** The ranked lines *)

(** [b] is not above [a], so [a] may stand before [b] in a descending
    order; and the same for an ascending order. *)
Definition not_above (a b : drow) : Prop := gt (key b) (key a) = false.
Definition not_below (a b : drow) : Prop := lt (key b) (key a) = false.

(** All the lines in the order of [nlargest], and of [nsmallest]. *)
Definition ranked_desc (data : list drow) : list drow :=
  (sort_desc (dropna data) ++ nan_rows data)%list.

Definition ranked_asc (data : list drow) : list drow :=
  (sort_asc (dropna data) ++ nan_rows data)%list.

Lemma sorted_app_inv {A} (R : A -> A -> Prop) (l1 l2 : list A) :
  StronglySorted R (l1 ++ l2) ->
  StronglySorted R l1 /\ forall a b, List.In a l1 -> List.In b l2 -> R a b.
Proof.
  induction l1 as [| x l1 IH]; simpl; intros S.
  - split; [constructor | intros a b []].
  - apply StronglySorted_inv in S. destruct S as [S Hx].
    destruct (IH S) as [S1 H12]. split.
    + constructor; [exact S1|].
      apply List.Forall_forall. intros y Hy.
      apply (proj1 (List.Forall_forall _ _) Hx). apply List.in_or_app. left. exact Hy.
    + intros a b [<- | Ha] Hb.
      * apply (proj1 (List.Forall_forall _ _) Hx). apply List.in_or_app. right. exact Hb.
      * exact (H12 a b Ha Hb).
Qed.

Lemma nan_tail_sorted (R : drow -> drow -> Prop) (l : list drow) :
  (forall a b, key b = NaN -> R a b) ->
  Forall (fun r => key r = NaN) l -> StronglySorted R l.
Proof.
  intros HR. induction 1 as [| x l Hx Hl IH]; constructor; [exact IH|].
  apply List.Forall_forall. intros y Hy. apply HR.
  exact (proj1 (List.Forall_forall _ _) Hl y Hy).
Qed.

Lemma ranked_desc_sorted (data : list drow) :
  StronglySorted not_above (ranked_desc data).
Proof.
  assert (HR : forall a b, key b = NaN -> not_above a b)
    by (intros a b Hb; unfold not_above; rewrite Hb; reflexivity).
  unfold ranked_desc. apply sorted_app.
  - rewrite sort_desc_by.
    apply (sort_by_weakly_sorted (fun a b => gt (key a) (key b)) is_number).
    + intros a b. apply gt_asym.
    + intros a b c. apply gt_negtrans.
    + apply dropna_all_numbers.
  - apply nan_tail_sorted; [exact HR | apply nan_rows_all_nan].
  - intros a b _ Hb. apply HR.
    exact (proj1 (List.Forall_forall _ _) (nan_rows_all_nan data) b Hb).
Qed.

Lemma ranked_asc_sorted (data : list drow) :
  StronglySorted not_below (ranked_asc data).
Proof.
  assert (HR : forall a b, key b = NaN -> not_below a b)
    by (intros a b Hb; unfold not_below, lt; rewrite Hb; destruct (key a); reflexivity).
  unfold ranked_asc. apply sorted_app.
  - rewrite sort_asc_by.
    apply (sort_by_weakly_sorted (fun a b => lt (key a) (key b)) is_number).
    + intros a b. unfold lt. apply gt_asym.
    + intros a b c Ha Hb Hc H. unfold lt in *.
      destruct (gt_negtrans _ _ _ Hc Hb Ha H) as [H1 | H1]; [right | left]; exact H1.
    + apply dropna_all_numbers.
  - apply nan_tail_sorted; [exact HR | apply nan_rows_all_nan].
  - intros a b _ Hb. apply HR.
    exact (proj1 (List.Forall_forall _ _) (nan_rows_all_nan data) b Hb).
Qed.

Lemma ranked_desc_perm (data : list drow) : Permutation (ranked_desc data) data.
Proof.
  unfold ranked_desc. apply Permutation_trans with (dropna data ++ nan_rows data)%list.
  - apply Permutation_app_tail, sort_desc_perm.
  - apply dropna_nan_rows_perm.
Qed.

Lemma ranked_asc_perm (data : list drow) : Permutation (ranked_asc data) data.
Proof.
  unfold ranked_asc. apply Permutation_trans with (dropna data ++ nan_rows data)%list.
  - apply Permutation_app_tail, sort_asc_perm.
  - apply dropna_nan_rows_perm.
Qed.

(** The first [n] of a sorted arrangement of [data]. *)
Lemma head_of_ranked (R : drow -> drow -> Prop) (n : nat) (ranked data : list drow) :
  StronglySorted R ranked -> Permutation ranked data ->
  length (firstn n ranked) = Nat.min n (length data) /\
  StronglySorted R (firstn n ranked) /\
  exists rest,
    Permutation (firstn n ranked ++ rest) data /\
    forall a b, List.In a (firstn n ranked) -> List.In b rest -> R a b.
Proof.
  intros S HP.
  rewrite <- (List.firstn_skipn n ranked) in S.
  destruct (sorted_app_inv R _ _ S) as [S1 H12].
  split; [|split].
  - rewrite List.length_firstn, (Permutation_length HP). reflexivity.
  - exact S1.
  - exists (skipn n ranked). split; [|exact H12].
    rewrite List.firstn_skipn. exact HP.
Qed.

Lemma nlargest_spec (n : nat) (data : list drow) :
  length (nlargest n data) = Nat.min n (length data) /\
  StronglySorted not_above (nlargest n data) /\
  exists rest,
    Permutation (nlargest n data ++ rest) data /\
    forall a b, List.In a (nlargest n data) -> List.In b rest -> not_above a b.
Proof.
  exact (head_of_ranked not_above n (ranked_desc data) data
           (ranked_desc_sorted data) (ranked_desc_perm data)).
Qed.

Lemma nsmallest_spec (n : nat) (data : list drow) :
  length (nsmallest n data) = Nat.min n (length data) /\
  StronglySorted not_below (nsmallest n data) /\
  exists rest,
    Permutation (nsmallest n data ++ rest) data /\
    forall a b, List.In a (nsmallest n data) -> List.In b rest -> not_below a b.
Proof.
  exact (head_of_ranked not_below n (ranked_asc data) data
           (ranked_asc_sorted data) (ranked_asc_perm data)).
Qed.

Lemma nlargest_incl (n : nat) (data : list drow) (r : drow) :
  List.In r (nlargest n data) -> List.In r data.
Proof.
  intros Hr. destruct (nlargest_spec n data) as [_ [_ [rest [HP _]]]].
  apply (Permutation_in _ HP). apply List.in_or_app. left. exact Hr.
Qed.

Lemma nsmallest_incl (n : nat) (data : list drow) (r : drow) :
  List.In r (nsmallest n data) -> List.In r data.
Proof.
  intros Hr. destruct (nsmallest_spec n data) as [_ [_ [rest [HP _]]]].
  apply (Permutation_in _ HP). apply List.in_or_app. left. exact Hr.
Qed.

(** The chart of the top wins of create_charts.py shows 10 lines, or all
    of them when there are fewer, in descending order of the change; they
    are lines of the data frame, and no line left out has a change above
    the change of a line shown. *)
Theorem top_wins_chart_shows_the_top (data : list drow) :
  let shown := CreateCharts.create_top_wins_chart data in
  length shown = Nat.min 10 (length data) /\
  StronglySorted (fun a b => gt (conversion_rate_change b) (conversion_rate_change a)
                             = false) shown /\
  exists rest,
    Permutation (shown ++ rest) data /\
    forall a b, List.In a shown -> List.In b rest ->
                gt (conversion_rate_change b) (conversion_rate_change a) = false.
Proof.
  exact (nlargest_spec 10 data).
Qed.

(** The chart of the top and bottom pages of create_final_charts.py is
    the 12 top lines in descending order followed by the 3 bottom lines in
    ascending order (fewer when the data frame is shorter), all of them
    lines of the data frame; in create_enhanced_charts.py the numbers are
    15 and 5. *)
Theorem top_performers_chart_rows (data : list drow) :
  (exists top bottom,
      CreateFinalCharts.create_top_performers_chart data = (top ++ bottom)%list /\
      length top = Nat.min 12 (length data) /\
      length bottom = Nat.min 3 (length data) /\
      StronglySorted not_above top /\ StronglySorted not_below bottom /\
      (forall r, List.In r (top ++ bottom) -> List.In r data)) /\
  (exists top bottom,
      CreateEnhancedCharts.create_top_performers_chart data = (top ++ bottom)%list /\
      length top = Nat.min 15 (length data) /\
      length bottom = Nat.min 5 (length data) /\
      StronglySorted not_above top /\ StronglySorted not_below bottom /\
      (forall r, List.In r (top ++ bottom) -> List.In r data)).
Proof.
  assert (Hgen : forall kt kb,
             exists top bottom,
               top_and_bottom kt kb data = (top ++ bottom)%list /\
               length top = Nat.min kt (length data) /\
               length bottom = Nat.min kb (length data) /\
               StronglySorted not_above top /\ StronglySorted not_below bottom /\
               (forall r, List.In r (top ++ bottom) -> List.In r data)).
  { intros kt kb. exists (nlargest kt data), (nsmallest kb data).
    destruct (nlargest_spec kt data) as [L1 [S1 _]].
    destruct (nsmallest_spec kb data) as [L2 [S2 _]].
    repeat split; auto.
    intros r Hr. apply List.in_app_or in Hr. destruct Hr as [Hr | Hr].
    - exact (nlargest_incl kt data r Hr).
    - exact (nsmallest_incl kb data r Hr). }
  split; [exact (Hgen 12 3) | exact (Hgen 15 5)].
Qed.

(** On a data frame of fewer than 15 lines (and at least one) the chart of
    create_final_charts.py shows some line twice, and so does the chart of
    create_enhanced_charts.py on fewer than 20 lines. *)
Theorem top_performers_chart_repeats (data : list drow) :
  (0 < length data < 15 ->
   ~ List.NoDup (CreateFinalCharts.create_top_performers_chart data)) /\
  (0 < length data < 20 ->
   ~ List.NoDup (CreateEnhancedCharts.create_top_performers_chart data)).
Proof.
  assert (Hgen : forall kt kb,
             length data < Nat.min kt (length data) + Nat.min kb (length data) ->
             ~ List.NoDup (top_and_bottom kt kb data)).
  { intros kt kb Hlen HND.
    assert (Hincl : List.incl (top_and_bottom kt kb data) data).
    { intros r Hr. unfold top_and_bottom, concat in Hr.
      apply List.in_app_or in Hr. destruct Hr as [Hr | Hr].
      - exact (nlargest_incl kt data r Hr).
      - exact (nsmallest_incl kb data r Hr). }
    pose proof (List.NoDup_incl_length HND Hincl) as Hle.
    unfold top_and_bottom, concat in Hle. rewrite List.length_app in Hle.
    destruct (nlargest_spec kt data) as [L1 _].
    destruct (nsmallest_spec kb data) as [L2 _].
    lia. }
  split; intros Hn.
  - apply (Hgen 12 3). lia.
  - apply (Hgen 15 5). lia.
Qed.

Lemma top_performers_chart_repeats_witness :
  ~ List.NoDup (CreateFinalCharts.create_top_performers_chart up_down_flat) /\
  ~ List.NoDup (CreateEnhancedCharts.create_top_performers_chart up_down_flat).
Proof.
  split.
  - apply (proj1 (top_performers_chart_repeats up_down_flat)). vm_compute. lia.
  - apply (proj2 (top_performers_chart_repeats up_down_flat)). vm_compute. lia.
Defined.

End RankingMore.

(** * Runs that fail *)

Module Failure.
Import PyStr IO Metrics.

(** [m] changes no file; [m] raises nothing; [m], when it raises, has
    changed no file. *)
Definition keeps_files {A} (m : io A) : Prop :=
  forall w, files (fst (m w)) = files w.

Definition never_raises {A} (m : io A) : Prop :=
  forall w, exists a, snd (m w) = inl a.


Lemma keeps_files_ret {A} (a : A) : keeps_files (ret a).
Proof. intros w. reflexivity. Qed.

Lemma keeps_files_raise {A} (e : exn) : keeps_files (@raise A e).
Proof. intros w. reflexivity. Qed.

Lemma keeps_files_print (line : string) : keeps_files (print line).
Proof. intros w. reflexivity. Qed.

Lemma keeps_files_read_file (path : string) : keeps_files (read_file path).
Proof. intros w. unfold read_file. destruct (files w !! path); reflexivity. Qed.

Lemma keeps_files_lift {A} (e : exn) (o : option A) : keeps_files (lift e o).
Proof. destruct o; [apply keeps_files_ret | apply keeps_files_raise]. Qed.

Lemma keeps_files_bind {A B} (m : io A) (k : A -> io B) :
  keeps_files m -> (forall a, keeps_files (k a)) -> keeps_files (bind m k).
Proof.
  intros Hm Hk w. specialize (Hm w). unfold bind.
  destruct (m w) as [w' [a | e]]; simpl in *.
  - rewrite <- Hm. apply Hk.
  - exact Hm.
Qed.

Lemma never_raises_ret {A} (a : A) : never_raises (ret a).
Proof. intros w. exists a. reflexivity. Qed.

Lemma never_raises_print (line : string) : never_raises (print line).
Proof. intros w. exists tt. reflexivity. Qed.

Lemma never_raises_write_file (path content : string) :
  never_raises (write_file path content).
Proof. intros w. exists tt. reflexivity. Qed.




Create HintDb failure.
#[export] Hint Resolve keeps_files_ret keeps_files_raise keeps_files_print
  keeps_files_read_file keeps_files_lift never_raises_ret never_raises_print
  never_raises_write_file : failure.


Lemma fill_placeholders_keeps_files (charts : list string) :
  forall i html_content,
    keeps_files (CreateFinalCharts.fill_placeholders i charts html_content).
Proof.
  induction charts as [| c charts IH]; intros i html_content; simpl.
  - apply keeps_files_ret.
  - destruct (contains (CreateFinalCharts.placeholder i) html_content);
      (apply keeps_files_bind; [apply keeps_files_print | intros _; apply IH]).
Qed.

#[export] Hint Resolve fill_placeholders_keeps_files : failure.






(** The CSV file is read first: without it create_charts.py stops with
    [FileNotFoundError] before it has printed or written anything, and the
    other two scripts print their first two lines and the error, and
    write nothing. *)
Theorem missing_csv_file (ext : externals) (w : world) :
  files w !! csv_path = None ->
  CreateCharts.main ext w = (w, inr (FileNotFoundError csv_path)) /\
  outcome (CreateFinalCharts.main ext) w = inl tt /\
  files (run (CreateFinalCharts.main ext) w) = files w /\
  console (run (CreateFinalCharts.main ext) w)
  = (console w
     ++ [ "Processing data and creating charts...";
          "Loading data...";
          "Error: [Errno 2] No such file or directory: "
            +:+ "'data/Pre_vs_Post_Request_Information_Submits.csv'" ])%list /\
  outcome (CreateEnhancedCharts.main ext) w = inl tt /\
  files (run (CreateEnhancedCharts.main ext) w) = files w /\
  console (run (CreateEnhancedCharts.main ext) w)
  = (console w
     ++ [ "Processing data and creating charts...";
          "Loading data...";
          "Error: [Errno 2] No such file or directory: "
            +:+ "'data/Pre_vs_Post_Request_Information_Submits.csv'" ])%list.
Proof.
  intros H.
  split; [|split; [|split; [|split; [|split; [|split]]]]].
  - unfold CreateCharts.main, CreateCharts.update_html_with_charts,
      CreateCharts.load_data, bind, read_file. rewrite H. reflexivity.
  - unfold outcome, CreateFinalCharts.main, try_except,
      CreateFinalCharts.update_html_with_charts,
      CreateFinalCharts.load_and_process_data, bind, read_file, print.
    cbn [files console]. rewrite H. reflexivity.
  - unfold run, CreateFinalCharts.main, try_except,
      CreateFinalCharts.update_html_with_charts,
      CreateFinalCharts.load_and_process_data, bind, read_file, print.
    cbn [files console]. rewrite H. reflexivity.
  - unfold run, CreateFinalCharts.main, try_except,
      CreateFinalCharts.update_html_with_charts,
      CreateFinalCharts.load_and_process_data, bind, read_file, print.
    cbn [files console]. rewrite H. cbn. rewrite <- !List.app_assoc. reflexivity.
  - unfold outcome, CreateEnhancedCharts.main, try_except,
      CreateEnhancedCharts.update_html_with_enhanced_charts,
      CreateEnhancedCharts.load_and_process_data, bind, read_file, print.
    cbn [files console]. rewrite H. reflexivity.
  - unfold run, CreateEnhancedCharts.main, try_except,
      CreateEnhancedCharts.update_html_with_enhanced_charts,
      CreateEnhancedCharts.load_and_process_data, bind, read_file, print.
    cbn [files console]. rewrite H. reflexivity.
  - unfold run, CreateEnhancedCharts.main, try_except,
      CreateEnhancedCharts.update_html_with_enhanced_charts,
      CreateEnhancedCharts.load_and_process_data, bind, read_file, print.
    cbn [files console]. rewrite H. cbn. rewrite <- !List.app_assoc. reflexivity.
Qed.





Definition no_files : world := {| files := ∅; console := [] |}.

Definition sample_rows : list row := [Row "/a" 100 120 5 9].


Lemma missing_csv_file_witness :
  CreateCharts.main (Samples.sample_ext sample_rows) no_files
  = (no_files, inr (FileNotFoundError csv_path)) /\
  files (run (CreateFinalCharts.main (Samples.sample_ext sample_rows)) no_files)
  = files no_files.
Proof.
  pose proof (missing_csv_file (Samples.sample_ext sample_rows) no_files eq_refl)
    as [H1 [_ [H3 _]]].
  split; [exact H1 | exact H3].
Defined.


End Failure.

(** * More of the patching: texts without images, anchors or a body *)

Module PatchingMore.
Import PyStr Re IO Metrics Patching.

(** ** Splitting on a separator that is not there *)

Lemma split_absent (sep s : string) :
  contains sep s = false -> split sep s = [s].
Proof.
  intros H. apply contains_false_find in H. unfold split.
  destruct (String.length s); simpl; [reflexivity|]. rewrite H. reflexivity.
Qed.

(** ** Searching and counting *)


Lemma search_none_findall (p : pattern) (s : string) :
  search p s = None -> findall p s = [].
Proof.
  unfold findall. induction s as [| a s IH]; intros H.
  - reflexivity.
  - cbn [search] in H. cbn [findall_from].
    destruct (rmatch p (String a s)); [discriminate|].
    destruct (search p s) as [[i n] |]; [discriminate|].
    exact (IH eq_refl).
Qed.

(** ** A first chart that is not a page *)

(** When the HTML of the first chart has no [<body>], create_charts.py
    stops with [IndexError] after it has read the report, and writes
    nothing; create_final_charts.py and create_enhanced_charts.py take the
    HTML as it is. *)
Theorem first_chart_without_body (ext : externals) (w : world)
    (text html_content : string) (rows : list row) :
  files w !! csv_path = Some text ->
  read_csv ext text = Some rows ->
  0 < length rows ->
  files w !! report_path = Some html_content ->
  contains "<body>" (first_html ext (map CreateCharts.derive_row rows)) = false ->
  CreateCharts.main ext w = (w, inr IndexError) /\
  (forall html_string,
      contains "<body>" html_string = false ->
      CreateFinalCharts.extract_chart_div html_string = html_string /\
      CreateEnhancedCharts.executive_inner html_string = html_string).
Proof.
  intros Hcsv Hrows _ Hrep Hbody. split.
  - unfold CreateCharts.main, CreateCharts.update_html_with_charts,
      CreateCharts.load_data, bind, read_file, lift, ret.
    rewrite Hcsv, Hrows, Hrep.
    unfold CreateCharts.patch, CreateCharts.overall_chart_content.
    rewrite (split_absent _ _ Hbody). reflexivity.
  - intros h Hh. unfold CreateFinalCharts.extract_chart_div,
      CreateEnhancedCharts.executive_inner.
    rewrite Hh. split; reflexivity.
Qed.

(** A renderer that emits a chart without a page around it. *)
Definition bare_ext : externals :=
  {| read_csv := fun _ => Some one_page;
     first_html := fun _ => "<div id=first></div>";
     second_html := fun _ => "<div id=second></div>";
     third_html := fun _ => "<div id=third></div>";
     summary_stats := fun _ => "<div class=summary></div>" |}.

Lemma first_chart_without_body_witness :
  CreateCharts.main bare_ext (Samples.sample_world three_images)
  = (Samples.sample_world three_images, inr IndexError).
Proof.
  exact (proj1 (first_chart_without_body bare_ext (Samples.sample_world three_images)
                  "page,sessions_pre,sessions_post,conversions_pre,conversions_post"
                  three_images one_page eq_refl eq_refl ltac:(vm_compute; lia)
                  eq_refl eq_refl)).
Defined.

(** ** Splitting on a separator that is there *)

Lemma split_fuel_cons (fuel : nat) (sep s : string) :
  exists piece rest, split_fuel fuel sep s = piece :: rest.
Proof.
  destruct fuel as [| f]; simpl.
  - eexists. eexists. reflexivity.
  - destruct (find sep s); eexists; eexists; reflexivity.
Qed.


(** ** A report with nothing to patch *)






End PatchingMore.

(** * What the image patterns match *)

Module RegexSound.
Import PyStr Re.

(** [matches p m]: the text [m] is of the form of the pattern [p]. *)
Inductive matches : pattern -> string -> Prop :=
| m_nil : matches [] ""
| m_lit c p m : matches p m -> matches (Lit c :: p) (String c m)
| m_opt_some c p m : matches p m -> matches (Opt c :: p) (String c m)
| m_opt_none c p m : matches p m -> matches (Opt c :: p) m
| m_star_stop cls p m : matches p m -> matches (Star cls :: p) m
| m_star_more cls p a m :
    cls a = true -> matches (Star cls :: p) m -> matches (Star cls :: p) (String a m)
| m_plus cls p a m :
    cls a = true -> matches (Star cls :: p) m -> matches (Plus cls :: p) (String a m).

(** Every character of [s] is of the class [cls]. *)
Fixpoint all_chars (cls : ascii -> bool) (s : string) : bool :=
  match s with
  | EmptyString => true
  | String a s' => cls a && all_chars cls s'
  end.

(** ** The matcher returns texts of the form of the pattern *)

Lemma star_loop_sound (cls : ascii -> bool) (p : pattern) :
  (forall s n, rmatch p s = Some n -> matches p (take n s) /\ n <= String.length s) ->
  forall s n, star_loop cls (rmatch p) s = Some n ->
              matches (Star cls :: p) (take n s) /\ n <= String.length s.
Proof.
  intros IHp. induction s as [| a s IHs]; intros n H.
  - cbn [star_loop] in H. destruct (IHp _ _ H) as [Hm Hn].
    split; [apply m_star_stop; exact Hm | exact Hn].
  - cbn [star_loop] in H. destruct (cls a) eqn:Ea.
    + destruct (star_loop cls (rmatch p) s) as [m |] eqn:Es.
      * injection H as <-. destruct (IHs m eq_refl) as [Hm Hn]. split.
        -- cbn [take]. apply m_star_more; [exact Ea | exact Hm].
        -- cbn [String.length]. lia.
      * destruct (IHp _ _ H) as [Hm Hn].
        split; [apply m_star_stop; exact Hm | exact Hn].
    + destruct (IHp _ _ H) as [Hm Hn].
      split; [apply m_star_stop; exact Hm | exact Hn].
Qed.

Lemma rmatch_sound (p : pattern) :
  forall s n, rmatch p s = Some n -> matches p (take n s) /\ n <= String.length s.
Proof.
  induction p as [| it p IH]; intros s n H.
  - injection H as <-. split; [constructor | lia].
  - destruct it as [c | cls | cls | c].
    + cbn [rmatch] in H. destruct s as [| a s]; [discriminate|].
      destruct (Ascii.eqb a c) eqn:E; [|discriminate].
      apply Ascii.eqb_eq in E. subst a.
      destruct (rmatch p s) as [m |] eqn:Em; [|discriminate].
      injection H as <-. destruct (IH s m Em) as [Hm Hn]. split.
      * cbn [take]. apply m_lit. exact Hm.
      * cbn [String.length]. lia.
    + cbn [rmatch] in H. exact (star_loop_sound cls p IH s n H).
    + cbn [rmatch] in H. destruct s as [| a s]; [discriminate|].
      destruct (cls a) eqn:Ea; [|discriminate].
      destruct (star_loop cls (rmatch p) s) as [m |] eqn:Em; [|discriminate].
      injection H as <-. destruct (star_loop_sound cls p IH s m Em) as [Hm Hn]. split.
      * cbn [take]. apply m_plus; [exact Ea | exact Hm].
      * cbn [String.length]. lia.
    + cbn [rmatch] in H. destruct s as [| a s].
      * destruct (IH _ _ H) as [Hm Hn].
        split; [apply m_opt_none; exact Hm | exact Hn].
      * destruct (Ascii.eqb a c) eqn:E.
        -- apply Ascii.eqb_eq in E. subst a.
           destruct (rmatch p s) as [m |] eqn:Em.
           ++ injection H as <-. destruct (IH s m Em) as [Hm Hn]. split.
              ** cbn [take]. apply m_opt_some. exact Hm.
              ** cbn [String.length]. lia.
           ++ destruct (IH _ _ H) as [Hm Hn].
              split; [apply m_opt_none; exact Hm | exact Hn].
        -- destruct (IH _ _ H) as [Hm Hn].
           split; [apply m_opt_none; exact Hm | exact Hn].
Qed.

(** ** Taking a text of the form of a pattern apart *)

Lemma matches_lits (pre : string) (p : pattern) :
  forall m, matches (lits pre ++ p)%list m -> exists m', m = pre +:+ m' /\ matches p m'.
Proof.
  induction pre as [| a pre IH]; intros m H.
  - exists m. split; [reflexivity | exact H].
  - cbn [lits app] in H. inversion H; subst.
    destruct (IH _ H3) as [m' [-> Hm']]. exists m'. split; [reflexivity | exact Hm'].
Qed.

Lemma matches_lit (c : ascii) (p : pattern) (m : string) :
  matches (Lit c :: p) m -> exists m', m = String c m' /\ matches p m'.
Proof. intros H. inversion H; subst. eexists. split; [reflexivity | assumption]. Qed.

Lemma matches_star (cls : ascii -> bool) (p : pattern) (m : string) :
  matches (Star cls :: p) m ->
  exists run m', m = run +:+ m' /\ all_chars cls run = true /\ matches p m'.
Proof.
  intros H. remember (Star cls :: p) as sp eqn:E.
  induction H; try discriminate.
  - injection E as -> ->. exists "", m. repeat split. assumption.
  - injection E as -> ->. destruct (IHmatches eq_refl) as [run [m' [-> [Hr Hm']]]].
    exists (String a run), m'. repeat split; [|exact Hm'].
    cbn [all_chars]. rewrite H, Hr. reflexivity.
Qed.

Lemma matches_plus (cls : ascii -> bool) (p : pattern) (m : string) :
  matches (Plus cls :: p) m ->
  exists run m', m = run +:+ m' /\ run <> "" /\ all_chars cls run = true /\ matches p m'.
Proof.
  intros H. inversion H; subst.
  destruct (matches_star _ _ _ H4) as [run [m' [-> [Hr Hm']]]].
  exists (String a run), m'. repeat split; [discriminate | | exact Hm'].
  cbn [all_chars]. rewrite H2, Hr. reflexivity.
Qed.

Lemma matches_opt (c : ascii) (p : pattern) (m : string) :
  matches (Opt c :: p) m ->
  exists o m', m = o +:+ m' /\ (o = "" \/ o = String c "") /\ matches p m'.
Proof.
  intros H. inversion H; subst.
  - exists (String c ""), m0. repeat split; [right; reflexivity | assumption].
  - exists "", m. repeat split; [left; reflexivity | assumption].
Qed.

Lemma matches_end (m : string) : matches [] m -> m = "".
Proof. intros H. inversion H. reflexivity. Qed.

(** ** Where a match is *)

Lemma append_cons (a : ascii) (s1 s2 : string) :
  String a s1 +:+ s2 = String a (s1 +:+ s2).
Proof. reflexivity. Qed.

Lemma take_drop_append (n : nat) (s : string) : take n s +:+ drop n s = s.
Proof.
  revert s. induction n as [| n IH]; intros s; [reflexivity|].
  destruct s as [| a s]; [reflexivity|].
  cbn [take drop]. rewrite append_cons, IH. reflexivity.
Qed.

Lemma drop_add (i n : nat) (s : string) : drop (i + n) s = drop n (drop i s).
Proof.
  revert s. induction i as [| i IH]; intros s; [reflexivity|].
  destruct s as [| a s]; cbn [Nat.add drop].
  - destruct n; reflexivity.
  - apply IH.
Qed.

Lemma length_take (n : nat) (s : string) :
  n <= String.length s -> String.length (take n s) = n.
Proof.
  revert s. induction n as [| n IH]; intros s H; [reflexivity|].
  destruct s as [| a s]; cbn [String.length] in *; [lia|].
  cbn [take String.length]. rewrite IH; lia.
Qed.

Lemma length_drop (n : nat) (s : string) :
  String.length (drop n s) = String.length s - n.
Proof.
  revert s. induction n as [| n IH]; intros s; cbn [drop]; [lia|].
  destruct s as [| a s]; cbn [String.length]; [reflexivity | apply IH].
Qed.

(** [re.search] returns the leftmost position where the pattern matches. *)
Lemma search_sound (p : pattern) (s : string) :
  forall i n, search p s = Some (i, n) ->
              rmatch p (drop i s) = Some n /\ i <= String.length s /\
              forall j, j < i -> rmatch p (drop j s) = None.
Proof.
  induction s as [| a s IH]; intros i n H; cbn [search] in H.
  - destruct (rmatch p "") as [m |] eqn:E; [|discriminate].
    injection H as <- <-. repeat split; [exact E | lia | intros j Hj; lia].
  - destruct (rmatch p (String a s)) as [m |] eqn:E.
    + injection H as <- <-. repeat split; [exact E | lia | intros j Hj; lia].
    + destruct (search p s) as [[i' n'] |] eqn:Es; [|discriminate].
      injection H as <- <-. destruct (IH i' n' eq_refl) as [H1 [H2 H3]].
      repeat split.
      * exact H1.
      * cbn [String.length]. lia.
      * intros j Hj. destruct j as [| j]; [exact E|]. apply H3. lia.
Qed.

(** Every text [re.findall] returns is what the pattern matches at some
    position of the text searched. *)
Lemma findall_from_sound (p : pattern) (s : string) :
  forall skip m, List.In m (findall_from p skip s) ->
                 exists j n, rmatch p (drop j s) = Some n /\ m = take n (drop j s).
Proof.
  induction s as [| a s IH]; intros skip m H; cbn [findall_from] in H.
  - destruct H.
  - destruct skip as [| k].
    + destruct (rmatch p (String a s)) as [n |] eqn:E.
      * destruct H as [<- | H].
        -- exists 0, n. split; [exact E | reflexivity].
        -- destruct (IH _ _ H) as [j [n' [H1 H2]]]. exists (S j), n'. split; assumption.
      * destruct (IH _ _ H) as [j [n' [H1 H2]]]. exists (S j), n'. split; assumption.
    + destruct (IH _ _ H) as [j [n' [H1 H2]]]. exists (S j), n'. split; assumption.
Qed.

(** ** The form of an embedded image *)

Definition image_prefix : string := "<img src=" +:+ q +:+ "data:image/png;base64,".

(** What create_charts.py and create_enhanced_charts.py take for an image:
    the prefix, a payload of at least one character without a double
    quote, the closing quote, blanks, a slash or none, and [>]. *)
Definition is_image (m : string) : Prop :=
  exists payload blanks slash,
    m = image_prefix +:+ payload +:+ q +:+ blanks +:+ slash +:+ ">" /\
    payload <> "" /\
    all_chars (not_char dq) payload = true /\
    all_chars is_space blanks = true /\
    (slash = "" \/ slash = "/").

(** What create_final_charts.py takes for an image: [<img], attributes,
    the source with a payload of at least one character without a double
    quote, anything up to the next [>] but a [>], and [>]. *)
Definition is_image_tag (m : string) : Prop :=
  exists attributes payload rest slash,
    m = "<img" +:+ attributes +:+ "src=" +:+ q +:+ "data:image/png;base64,"
        +:+ payload +:+ rest +:+ slash +:+ ">" /\
    all_chars (not_char ">"%char) attributes = true /\
    payload <> "" /\
    all_chars (not_char dq) payload = true /\
    all_chars (not_char ">"%char) rest = true /\
    (slash = "" \/ slash = "/").

Lemma charts_pattern_form (m : string) :
  matches CreateCharts.base64_pattern m -> is_image m.
Proof.
  intros H. unfold CreateCharts.base64_pattern in H.
  apply matches_lits in H. destruct H as [m1 [-> H]].
  apply matches_lit in H. destruct H as [m2 [-> H]].
  apply matches_lits in H. destruct H as [m3 [-> H]].
  apply matches_plus in H. destruct H as [payload [m4 [-> [Hne [Hp H]]]]].
  apply matches_lit in H. destruct H as [m5 [-> H]].
  apply matches_star in H. destruct H as [blanks [m6 [-> [Hb H]]]].
  apply matches_opt in H. destruct H as [slash [m7 [-> [Hs H]]]].
  apply matches_lit in H. destruct H as [m8 [-> H]].
  apply matches_end in H. subst m8.
  exists payload, blanks, slash. repeat split; try assumption.
Qed.

Lemma final_pattern_form (m : string) :
  matches CreateFinalCharts.base64_pattern m -> is_image_tag m.
Proof.
  intros H. unfold CreateFinalCharts.base64_pattern in H.
  apply matches_lits in H. destruct H as [m1 [-> H]].
  apply matches_star in H. destruct H as [attributes [m2 [-> [Ha H]]]].
  apply matches_lits in H. destruct H as [m3 [-> H]].
  apply matches_lit in H. destruct H as [m4 [-> H]].
  apply matches_lits in H. destruct H as [m5 [-> H]].
  apply matches_plus in H. destruct H as [payload [m6 [-> [Hne [Hp H]]]]].
  apply matches_star in H. destruct H as [rest [m7 [-> [Hr H]]]].
  apply matches_opt in H. destruct H as [slash [m8 [-> [Hs H]]]].
  apply matches_lit in H. destruct H as [m9 [-> H]].
  apply matches_end in H. subst m9.
  exists attributes, payload, rest, slash. repeat split; try assumption.
Qed.

(** ** One substitution *)

Lemma sub1_cases (p : pattern) (repl s : string) :
  (search p s = None /\ sub1 p repl s = s) \/
  (exists before image after,
      s = before +:+ image +:+ after /\
      matches p image /\
      sub1 p repl s = before +:+ repl +:+ after /\
      forall j, j < String.length before -> rmatch p (drop j s) = None).
Proof.
  unfold sub1. destruct (search p s) as [[i n] |] eqn:E.
  - right. destruct (search_sound p s i n E) as [Hm [Hi Hleft]].
    destruct (rmatch_sound p _ _ Hm) as [Hform Hn].
    exists (take i s), (take n (drop i s)), (drop (i + n) s).
    split; [|split; [exact Hform | split; [reflexivity|]]].
    + rewrite drop_add, take_drop_append, take_drop_append. reflexivity.
    + intros j Hj. apply Hleft. rewrite length_take in Hj; [exact Hj | exact Hi].
  - left. split; reflexivity.
Qed.

(** A substitution of create_charts.py or create_enhanced_charts.py either
    finds no image and leaves the text as it is, or replaces one text of
    the form of an embedded image, the first in the text, and leaves what
    is before it and after it as it is. *)
Theorem substitution_replaces_first_image (repl s : string) :
  ((search CreateCharts.base64_pattern s = None /\
    sub1 CreateCharts.base64_pattern repl s = s) \/
   (exists before image after,
       s = before +:+ image +:+ after /\
       is_image image /\
       sub1 CreateCharts.base64_pattern repl s = before +:+ repl +:+ after /\
       forall j, j < String.length before ->
                 rmatch CreateCharts.base64_pattern (drop j s) = None)) /\
  ((search CreateEnhancedCharts.base64_pattern s = None /\
    sub1 CreateEnhancedCharts.base64_pattern repl s = s) \/
   (exists before image after,
       s = before +:+ image +:+ after /\
       is_image image /\
       sub1 CreateEnhancedCharts.base64_pattern repl s = before +:+ repl +:+ after /\
       forall j, j < String.length before ->
                 rmatch CreateEnhancedCharts.base64_pattern (drop j s) = None)).
Proof.
  split.
  - destruct (sub1_cases CreateCharts.base64_pattern repl s)
      as [H | [before [image [after [H1 [H2 [H3 H4]]]]]]]; [left; exact H|].
    right. exists before, image, after.
    split; [exact H1 | split; [exact (charts_pattern_form image H2) | split; assumption]].
  - destruct (sub1_cases CreateEnhancedCharts.base64_pattern repl s)
      as [H | [before [image [after [H1 [H2 [H3 H4]]]]]]]; [left; exact H|].
    right. exists before, image, after.
    split; [exact H1 | split; [exact (charts_pattern_form image H2) | split; assumption]].
Qed.

(** Every text that create_final_charts.py counts as an image and replaces
    with a placeholder is a part of the report of the form of an image
    tag with an embedded source, which ends at its first [>] after the
    payload. *)
Theorem final_finds_image_tags (html_content m : string) :
  List.In m (findall CreateFinalCharts.base64_pattern html_content) ->
  is_image_tag m /\
  exists before after, html_content = before +:+ m +:+ after.
Proof.
  intros H. unfold findall in H.
  destruct (findall_from_sound _ _ _ _ H) as [j [n [Hm ->]]].
  destruct (rmatch_sound _ _ _ Hm) as [Hform _]. split.
  - exact (final_pattern_form _ Hform).
  - exists (take j html_content), (drop n (drop j html_content)).
    rewrite take_drop_append, take_drop_append. reflexivity.
Qed.

Lemma final_finds_image_tags_witness :
  is_image_tag (Samples.img "AAAA") /\
  exists before after,
    Patching.three_images = before +:+ Samples.img "AAAA" +:+ after.
Proof.
  apply (final_finds_image_tags Patching.three_images (Samples.img "AAAA")).
  vm_compute. left. reflexivity.
Defined.

End RegexSound.

(** * The labels of the bars *)

Module Labels.
Import PyStr Re RegexSound.

(** [x[:k] + '...' if len(x) > k else x] *)
Definition shorten (k : nat) (x : string) : string :=
  if (k <? String.length x)%nat then take k x +:+ "..." else x.

(** create_final_charts.py, line 176, and create_enhanced_charts.py,
    line 198: the label made of the cleaned page name. *)
Definition final_page_short (page_clean : string) : string := shorten 50 page_clean.
Definition enhanced_page_short (page_clean : string) : string := shorten 40 page_clean.

(** [l[-1]] of a [split], which is never empty *)
Definition item_last (l : list string) : string := List.last l "".

(** create_enhanced_charts.py, lines 124-125: the label of a top-5 bar,
    made of the last segment of the page path. *)
Definition top5_label (page : string) : string :=
  shorten 20 (item_last (split "/" page)).

Lemma length_append (s1 s2 : string) :
  String.length (s1 +:+ s2) = String.length s1 + String.length s2.
Proof.
  induction s1 as [| a s1 IH]; [reflexivity|].
  rewrite append_cons. cbn [String.length]. rewrite IH. reflexivity.
Qed.

Lemma take_append_exact (s1 s2 : string) : take (String.length s1) (s1 +:+ s2) = s1.
Proof.
  induction s1 as [| a s1 IH]; [reflexivity|].
  rewrite append_cons. cbn [String.length take]. rewrite IH. reflexivity.
Qed.

Lemma take_all (k : nat) (x : string) : String.length x <= k -> take k x = x.
Proof.
  revert x. induction k as [| k IH]; intros x H.
  - destruct x; [reflexivity | cbn [String.length] in H; lia].
  - destruct x as [| a x]; [reflexivity|]. cbn [String.length] in H.
    cbn [take]. rewrite IH; [reflexivity | lia].
Qed.

Lemma take_take (k : nat) (x : string) : take k (take k x) = take k x.
Proof.
  revert x. induction k as [| k IH]; intros x; [reflexivity|].
  destruct x as [| a x]; [reflexivity|]. cbn [take]. rewrite IH. reflexivity.
Qed.

Lemma length_take_le (k : nat) (x : string) : String.length (take k x) <= k.
Proof.
  revert x. induction k as [| k IH]; intros x; [simpl; lia|].
  destruct x as [| a x]; cbn [take String.length]; [lia|].
  specialize (IH x). lia.
Qed.

(** A shortened name has at most [k + 3] characters, is the name itself
    when the name has at most [k] characters, and otherwise is the first
    [k] characters of the name followed by three dots. *)
Lemma shorten_spec (k : nat) (x : string) :
  String.length (shorten k x) <= k + 3 /\
  (String.length x <= k -> shorten k x = x) /\
  (k < String.length x ->
   shorten k x = take k x +:+ "..." /\ String.length (shorten k x) = k + 3) /\
  take k (shorten k x) = take k x.
Proof.
  unfold shorten. destruct (k <? String.length x)%nat eqn:E.
  - apply Nat.ltb_lt in E.
    assert (Hl : String.length (take k x) = k) by (apply length_take; lia).
    repeat split.
    + rewrite length_append, Hl. simpl. lia.
    + intros H. lia.
    + rewrite length_append, Hl. reflexivity.
    + rewrite <- Hl at 1. rewrite take_append_exact. reflexivity.
  - apply Nat.ltb_ge in E. repeat split; try lia; try reflexivity.
Qed.

(** The page labels of create_final_charts.py have at most 53 characters
    and those of create_enhanced_charts.py at most 43; a cleaned page name
    of at most 50, resp. 40, characters is its own label, and a longer one
    keeps its first 50, resp. 40, characters. *)
Theorem page_short_bounds (page_clean : string) :
  String.length (final_page_short page_clean) <= 53 /\
  String.length (enhanced_page_short page_clean) <= 43 /\
  (String.length page_clean <= 50 -> final_page_short page_clean = page_clean) /\
  (String.length page_clean <= 40 -> enhanced_page_short page_clean = page_clean) /\
  take 50 (final_page_short page_clean) = take 50 page_clean /\
  take 40 (enhanced_page_short page_clean) = take 40 page_clean.
Proof.
  destruct (shorten_spec 50 page_clean) as [A1 [A2 [_ A3]]].
  destruct (shorten_spec 40 page_clean) as [B1 [B2 [_ B3]]].
  unfold final_page_short, enhanced_page_short. repeat split; assumption.
Qed.

Lemma page_short_bounds_witness :
  final_page_short "bachelors > psychology" = "bachelors > psychology" /\
  enhanced_page_short "bachelors > psychology" = "bachelors > psychology".
Proof.
  pose proof (page_short_bounds "bachelors > psychology") as [_ [_ [H1 [H2 _]]]].
  split; [apply H1 | apply H2]; vm_compute; lia.
Defined.

(** ** The last segment of a path *)

Lemma starts_with_length (p s : string) :
  starts_with p s = true -> String.length p <= String.length s.
Proof.
  revert s. induction p as [| a p IH]; intros s H; [simpl; lia|].
  destruct s as [| b s]; [discriminate|]. cbn [starts_with] in H.
  apply andb_true_iff in H. destruct H as [_ H].
  cbn [String.length]. specialize (IH s H). lia.
Qed.

Lemma find_some_bound (sep s : string) :
  forall i, find sep s = Some i -> i + String.length sep <= String.length s.
Proof.
  induction s as [| a s IH]; intros i H; cbn [find] in H.
  - destruct (starts_with sep "") eqn:E; [|discriminate].
    injection H as <-. exact (starts_with_length _ _ E).
  - destruct (starts_with sep (String a s)) eqn:E.
    + injection H as <-. exact (starts_with_length _ _ E).
    + destruct (find sep s) as [j |]; [|discriminate].
      injection H as <-. specialize (IH j eq_refl). cbn [String.length]. lia.
Qed.

Lemma last_cons_cons {A} (x y : A) (l : list A) (d : A) :
  List.last (x :: y :: l) d = List.last (y :: l) d.
Proof. reflexivity. Qed.

(** The last piece of a split holds no separator. *)
Lemma split_fuel_last (sep : string) :
  sep <> "" ->
  forall fuel s, String.length s <= fuel ->
                 find sep (item_last (split_fuel fuel sep s)) = None.
Proof.
  intros Hsep. induction fuel as [| f IH]; intros s Hs.
  - destruct s; [|cbn [String.length] in Hs; lia].
    cbn. destruct sep; [congruence | reflexivity].
  - cbn [split_fuel]. destruct (find sep s) as [i |] eqn:E.
    + destruct (PatchingMore.split_fuel_cons f sep (drop (i + String.length sep) s))
        as [piece [rest Hr]].
      unfold item_last. rewrite Hr, last_cons_cons, <- Hr. apply IH.
      rewrite length_drop. pose proof (find_some_bound _ _ _ E).
      destruct sep; [congruence|]. cbn [String.length] in *. lia.
    + exact E.
Qed.

Lemma find_slash_none (x : string) :
  find "/" x = None -> all_chars (not_char "/"%char) x = true.
Proof.
  induction x as [| a x IH]; intros H; [reflexivity|].
  apply Patching.find_none_cons in H. destruct H as [H1 H2].
  cbn [all_chars]. rewrite (IH H2), andb_true_r.
  cbn [starts_with] in H1. rewrite andb_true_r in H1.
  unfold not_char. rewrite Ascii.eqb_sym, H1. reflexivity.
Qed.

Lemma all_chars_take (cls : ascii -> bool) (k : nat) (x : string) :
  all_chars cls x = true -> all_chars cls (take k x) = true.
Proof.
  revert x. induction k as [| k IH]; intros x H; [reflexivity|].
  destruct x as [| a x]; [reflexivity|]. cbn [all_chars] in H.
  apply andb_true_iff in H. destruct H as [Ha Hx].
  cbn [take all_chars]. rewrite Ha, (IH x Hx). reflexivity.
Qed.

Lemma all_chars_append (cls : ascii -> bool) (s1 s2 : string) :
  all_chars cls s1 = true -> all_chars cls s2 = true ->
  all_chars cls (s1 +:+ s2) = true.
Proof.
  intros H1 H2. induction s1 as [| a s1 IH]; [exact H2|].
  cbn [all_chars] in H1. apply andb_true_iff in H1. destruct H1 as [Ha H1].
  rewrite append_cons. cbn [all_chars]. rewrite Ha, (IH H1). reflexivity.
Qed.

(** The label of a top-5 bar of create_enhanced_charts.py has at most 23
    characters and no slash; for a page name without a slash and of at
    most 20 characters it is the page name. *)
Theorem top5_label_spec (page : string) :
  String.length (top5_label page) <= 23 /\
  all_chars (not_char "/"%char) (top5_label page) = true /\
  (contains "/" page = false -> String.length page <= 20 -> top5_label page = page).
Proof.
  unfold top5_label. split; [|split].
  - exact (proj1 (shorten_spec 20 _)).
  - assert (Hlast : all_chars (not_char "/"%char) (item_last (split "/" page)) = true).
    { apply find_slash_none. unfold split.
      apply split_fuel_last; [discriminate | lia]. }
    unfold shorten. destruct (20 <? _)%nat; [|exact Hlast].
    apply all_chars_append; [apply all_chars_take; exact Hlast | reflexivity].
  - intros Hc Hl. rewrite (PatchingMore.split_absent _ _ Hc).
    exact (proj1 (proj2 (shorten_spec 20 page)) Hl).
Qed.

Lemma top5_label_spec_witness : top5_label "psychology" = "psychology".
Proof.
  apply (proj2 (proj2 (top5_label_spec "psychology"))).
  - reflexivity.
  - vm_compute. lia.
Defined.

(** On a page path the label is the shortened last segment. *)
Example top5_label_path :
  top5_label "/online-degrees/bachelors/psychology" = "psychology" /\
  top5_label "/online-degrees/masters/organizational-management-and-leadership"
  = "organizational-manag...".
Proof. vm_compute. split; reflexivity. Qed.

End Labels.

(** * More of the headline totals *)

Module AggregateMore.
Import Float Metrics MetricsMore.





End AggregateMore.

(** * Equal changes keep the order of the CSV file *)

Module Stability.
Import Float Metrics Ranking RankingMore.

(** [a] stands before an occurrence of [b] in the list. *)
Inductive precedes {A : Type} (a b : A) : list A -> Prop :=
| prec_here l : List.In b l -> precedes a b (a :: l)
| prec_later x l : precedes a b l -> precedes a b (x :: l).

Lemma precedes_in_r {A} (a b : A) (l : list A) : precedes a b l -> List.In b l.
Proof. induction 1; [right; assumption | right; assumption]. Qed.

Lemma precedes_app_l {A} (a b : A) (l r : list A) :
  precedes a b l -> precedes a b (l ++ r).
Proof.
  induction 1 as [l Hb | x l H IH]; simpl.
  - apply prec_here. apply List.in_or_app. left. exact Hb.
  - apply prec_later. exact IH.
Qed.

Lemma precedes_filter {A} (f : A -> bool) (a b : A) (l : list A) :
  f a = true -> f b = true -> precedes a b l -> precedes a b (List.filter f l).
Proof.
  intros Ha Hb. induction 1 as [l Hin | x l H IH]; simpl.
  - rewrite Ha. apply prec_here. apply List.filter_In. split; assumption.
  - destruct (f x); [apply prec_later|]; exact IH.
Qed.

Lemma precedes_firstn {A} (a b : A) (l : list A) :
  List.NoDup l -> precedes a b l ->
  forall n, List.In b (firstn n l) -> precedes a b (firstn n l).
Proof.
  intros HND H. induction H as [l Hb | x l H IH]; intros n Hn.
  - destruct n as [| n]; [destruct Hn|]. cbn [firstn] in *.
    apply List.NoDup_cons_iff in HND. destruct HND as [Ha _].
    destruct Hn as [-> | Hn]; [contradiction|].
    apply prec_here. exact Hn.
  - destruct n as [| n]; [destruct Hn|]. cbn [firstn] in *.
    apply List.NoDup_cons_iff in HND. destruct HND as [Hx HND].
    destruct Hn as [-> | Hn].
    + exfalso. apply Hx. exact (precedes_in_r _ _ _ H).
    + apply prec_later. exact (IH HND n Hn).
Qed.

Section StableInsertion.
Variable before : drow -> drow -> bool.

Lemma precedes_insert_old (x a b : drow) (l : list drow) :
  precedes a b l -> precedes a b (insert_by before x l).
Proof.
  induction 1 as [l Hb | y l H IH]; simpl.
  - destruct (before a x).
    + apply prec_here.
      apply (Permutation_in _ (Permutation_sym (insert_by_perm before x l))).
      right. exact Hb.
    + apply prec_later, prec_here. exact Hb.
  - destruct (before y x).
    + apply prec_later. exact IH.
    + apply prec_later, prec_later. exact H.
Qed.

Lemma precedes_insert_new (x y : drow) (l : list drow) :
  List.In y l -> before y x = false -> precedes x y (insert_by before x l).
Proof.
  intros Hy Hb. induction l as [| z l IH]; [destruct Hy|]. simpl.
  destruct (before z x) eqn:E.
  - apply prec_later. apply IH. destruct Hy as [-> | Hy]; [congruence | exact Hy].
  - apply prec_here. exact Hy.
Qed.

(** A line that comes first in the input and that the other line does not
    go before comes first in the output. *)
Lemma sort_by_keeps_order (a b : drow) (l : list drow) :
  precedes a b l -> before b a = false -> precedes a b (sort_by before l).
Proof.
  intros H Hb. induction H as [l Hin | x l H IH]; simpl.
  - apply precedes_insert_new; [|exact Hb].
    apply (Permutation_in _ (Permutation_sym (sort_by_perm before l))). exact Hin.
  - apply precedes_insert_old. exact IH.
Qed.
End StableInsertion.

Lemma feq_number (a b : fval) :
  feq a b = true ->
  is_nan a = false /\ is_nan b = false /\ gt a b = false /\ gt b a = false.
Proof.
  destruct a as [x | | |], b as [y | | |]; simpl; intros H; try discriminate;
    repeat split.
  - apply Qeq_bool_iff in H. apply MetricsMore.Qlt_bool_false_iff.
    rewrite H. apply Qle_refl.
  - apply Qeq_bool_iff in H. apply MetricsMore.Qlt_bool_false_iff.
    rewrite H. apply Qle_refl.
Qed.

(** Of two lines with the same change, the one that comes first in the
    data frame comes first in [nlargest] and in [nsmallest]: when the
    lines of the data frame are all different and the later line is
    returned, the earlier line is returned before it. *)
Theorem ties_keep_input_order (n : nat) (data : list drow) (a b : drow) :
  List.NoDup data ->
  precedes a b data ->
  feq (conversion_rate_change a) (conversion_rate_change b) = true ->
  (List.In b (nlargest n data) -> precedes a b (nlargest n data)) /\
  (List.In b (nsmallest n data) -> precedes a b (nsmallest n data)).
Proof.
  intros HND Hab Heq.
  destruct (feq_number _ _ Heq) as [Ha [Hb [Hgt1 Hgt2]]].
  assert (Hdrop : precedes a b (dropna data)).
  { unfold dropna. apply precedes_filter; [| | exact Hab]; unfold key.
    - rewrite Ha. reflexivity.
    - rewrite Hb. reflexivity. }
  split; intros Hin.
  - apply precedes_firstn; [| |exact Hin].
    + exact (Permutation_NoDup (Permutation_sym (ranked_desc_perm data)) HND).
    + apply precedes_app_l. rewrite sort_desc_by.
      apply sort_by_keeps_order; [exact Hdrop | exact Hgt2].
  - apply precedes_firstn; [| |exact Hin].
    + exact (Permutation_NoDup (Permutation_sym (ranked_asc_perm data)) HND).
    + apply precedes_app_l. rewrite sort_asc_by.
      apply sort_by_keeps_order; [exact Hdrop | exact Hgt1].
Qed.

Lemma ties_keep_input_order_witness :
  precedes (CreateFinalCharts.derive_row (Row "/a" 100 100 1 1))
           (CreateFinalCharts.derive_row (Row "/b" 100 100 2 2))
           (nlargest 2 all_flat) /\
  precedes (CreateFinalCharts.derive_row (Row "/a" 100 100 1 1))
           (CreateFinalCharts.derive_row (Row "/b" 100 100 2 2))
           (nsmallest 2 all_flat).
Proof.
  assert (HND : List.NoDup all_flat).
  { unfold all_flat. simpl.
    repeat (constructor; [simpl; intros H; repeat destruct H as [H | H];
                          try discriminate H; try contradiction |]).
    constructor. }
  pose proof (ties_keep_input_order 2 all_flat
                (CreateFinalCharts.derive_row (Row "/a" 100 100 1 1))
                (CreateFinalCharts.derive_row (Row "/b" 100 100 2 2))
                HND
                ltac:(apply prec_here; left; reflexivity) eq_refl)
    as [H1 H2].
  split.
  - apply H1. vm_compute. right. left. reflexivity.
  - apply H2. vm_compute. right. left. reflexivity.
Defined.

End Stability.
